(** * Monthly distance aggregation: a shallow embedding of
      [logic/monthly_distance.py]

    The module reads a spreadsheet of outlet visits with pandas, groups the
    rows per salesperson, week and day, sums the geodesic length of each
    day's path in visiting order and rolls the days up into one total per
    salesperson.

    Layout of this file:
    - [Py]: the Python values a spreadsheet cell can hold, their equality,
      [str.lower], [sorted] and insertion-ordered tables;
    - [Pandas]: the data frame operations the module calls
      ([dropna], [to_numeric], [sort_values], [groupby]);
    - [MonthlyDistance]: the two functions of the module, over the
      library functions they take as given ([Externals]);
    - [Spec]: the words of the specification, and the steps of the
      function restated without the run log;
    - [Demo]: sample sheets and a concrete run-time;
    - the facts on each layer and the properties of the two functions.

    Floats are the binary64 floats of the kernel, so [+] rounds as it does
    in Python.  [round], the geodesic, the parsers behind [float(s)],
    [int(s)] and [pd.to_numeric], the case tables of Unicode and the reading
    of the file are taken as given. *)

From Stdlib Require Import ZArith List String Ascii Bool Floats.
From Stdlib Require Import DecimalString Permutation Sorted OrderedTypeEx Lia.
From Stdlib Require Import FunctionalExtensionality.
Import ListNotations.

Set Implicit Arguments.

(* ================================================================== *)
(** * Python values *)
(* ================================================================== *)

Module Py.

(** What a cell of the sheet holds once pandas has read it: nothing
    ([None]/[NaN]), an [int], a [float] or a [str].  A float cell can itself
    be [nan]; [isna] treats both alike.  Dates and booleans are left out. *)
Inductive cell : Type :=
| CNull
| CInt (z : Z)
| CFloat (f : float)
| CStr (s : string).

(** The exceptions the module can meet outside a [try]. *)
Inductive exn : Type :=
| ValueError
| TypeError
| OverflowError.

(** [pd.isna] *)
Definition isna (c : cell) : bool :=
  match c with
  | CNull => true
  | CFloat f => PrimFloat.is_nan f
  | CInt _ | CStr _ => false
  end.

(** ** Exact integer value of a float

    [float_integral f] is [Some z] when [f] is finite and equal to the
    integer [z]; [float_trunc f] rounds a finite [f] toward zero. *)
Definition float_integral (f : float) : option Z :=
  match Prim2SF f with
  | S754_zero _ => Some 0%Z
  | S754_finite s m e =>
      let sg (z : Z) := if s then (- z)%Z else z in
      if (0 <=? e)%Z then Some (sg (Z.pos m * 2 ^ e)%Z)
      else if (Z.pos m mod 2 ^ (- e) =? 0)%Z
           then Some (sg (Z.pos m / 2 ^ (- e))%Z)
           else None
  | S754_infinity _ | S754_nan => None
  end.

Definition float_trunc (f : float) : option Z :=
  match Prim2SF f with
  | S754_zero _ => Some 0%Z
  | S754_finite s m e =>
      let sg (z : Z) := if s then (- z)%Z else z in
      if (0 <=? e)%Z then Some (sg (Z.pos m * 2 ^ e)%Z)
      else Some (sg (Z.pos m / 2 ^ (- e))%Z)
  | S754_infinity _ | S754_nan => None
  end.

(** [float(z)] for an [int]: the nearest double. *)
Definition float_of_Z (z : Z) : float :=
  SF2Prim (binary_normalize prec emax z 0 false).

(** ** Equality of values, as [==] and hashing see it

    [1 == 1.0] holds in Python and a missing value equals nothing, so a
    value is compared through a key: integers and integral floats share
    [KInt], other floats are told apart by their sign, mantissa and
    exponent. *)
Inductive pykey : Type :=
| KInt (z : Z)
| KFloat (f : spec_float)
| KStr (s : string).

Definition cell_key (c : cell) : option pykey :=
  match c with
  | CNull => None
  | CInt z => Some (KInt z)
  | CFloat f =>
      if PrimFloat.is_nan f then None
      else match float_integral f with
           | Some z => Some (KInt z)
           | None => Some (KFloat (Prim2SF f))
           end
  | CStr s => Some (KStr s)
  end.

Definition spec_float_eqb (x y : spec_float) : bool :=
  match x, y with
  | S754_zero a, S754_zero b => Bool.eqb a b
  | S754_infinity a, S754_infinity b => Bool.eqb a b
  | S754_finite a m e, S754_finite b n k =>
      Bool.eqb a b && Pos.eqb m n && Z.eqb e k
  | S754_nan, S754_nan => true
  | _, _ => false
  end.

Definition pykey_eqb (x y : pykey) : bool :=
  match x, y with
  | KInt a, KInt b => Z.eqb a b
  | KFloat f, KFloat g => spec_float_eqb f g
  | KStr s, KStr t => String.eqb s t
  | _, _ => false
  end.

Definition cell_eqb (a b : cell) : bool :=
  match cell_key a, cell_key b with
  | Some x, Some y => pykey_eqb x y
  | _, _ => false
  end.

(** ** [str.lower] and the order on [str]

    A [string] holds the UTF-8 bytes of a Python [str]; comparing two of
    them byte by byte is comparing the texts code point by code point, as
    Python does.

    On a text of ASCII characters [str.lower] maps [A]..[Z] to [a]..[z] and
    leaves the rest alone.  On a text with a character beyond ASCII it
    follows the case tables of Unicode; these are not written out here but
    taken as given, as the function [unicode_lower]. *)
Definition ascii_lower (a : ascii) : ascii :=
  let n := nat_of_ascii a in
  if ((65 <=? n) && (n <=? 90))%nat then ascii_of_nat (n + 32) else a.

(** [s.isascii()]: no byte has its high bit set *)
Fixpoint isascii (s : string) : bool :=
  match s with
  | EmptyString => true
  | String (Ascii _ _ _ _ _ _ _ high) s' => negb high && isascii s'
  end.

Fixpoint ascii_text_lower (s : string) : string :=
  match s with
  | EmptyString => EmptyString
  | String a s' => String (ascii_lower a) (ascii_text_lower s')
  end.

Definition lower (unicode_lower : string -> string) (s : string) : string :=
  if isascii s then ascii_text_lower s else unicode_lower s.

(** [sorted(l, key=...)]: a stable sort on a [<=] of the keys.  The head of
    the input is put in front of the first element of the sorted tail it
    does not exceed, so equal keys keep their input order. *)
Section StableSort.
Variable A : Type.
Variable leb : A -> A -> bool.

Fixpoint insert (x : A) (l : list A) : list A :=
  match l with
  | [] => [x]
  | y :: l' => if leb x y then x :: l else y :: insert x l'
  end.

Fixpoint sorted (l : list A) : list A :=
  match l with
  | [] => []
  | x :: l' => insert x (sorted l')
  end.
End StableSort.

(** A table kept in insertion order and looked up with an equality test:
    [upsert k fresh upd d] updates the value of the first key equal to [k],
    or appends [k] with the value [fresh]. *)
Section Upsert.
Variables K V : Type.
Variable eqb : K -> K -> bool.

Fixpoint upsert (k : K) (fresh : V) (upd : V -> V) (d : list (K * V))
  : list (K * V) :=
  match d with
  | [] => [(k, fresh)]
  | (k', x) :: d' =>
      if eqb k' k then (k', upd x) :: d'
      else (k', x) :: upsert k fresh upd d'
  end.
End Upsert.

(** the payloads of the items whose key [k] equals *)
Definition matching {K A : Type} (eqb : K -> K -> bool) (k : K)
  (items : list (K * A)) : list A :=
  map snd (filter (fun i => eqb k (fst i)) items).

End Py.

Export Py.

(* ================================================================== *)
(** * The pandas operations the module calls *)
(* ================================================================== *)

Module Pandas.

(** A frame is its header and its rows; a row lists its cells in header
    order, and a cell a row does not reach is missing. *)
Definition Row : Type := list cell.

Record DataFrame : Type := mkFrame {
  columns : list string;
  rows : list Row
}.

(** [c in df.columns] *)
Definition has_column (cols : list string) (c : string) : bool :=
  existsb (String.eqb c) cols.

Fixpoint col_index (c : string) (cols : list string) : option nat :=
  match cols with
  | [] => None
  | c' :: cols' =>
      if String.eqb c' c then Some O else option_map S (col_index c cols')
  end.

(** [row[c]].  The module reads a column only after it has checked that
    the header has it. *)
Definition loc (cols : list string) (c : string) (r : Row) : cell :=
  match col_index c cols with
  | Some i => nth i r CNull
  | None => CNull
  end.

Fixpoint set_cell (i : nat) (v : cell) (r : Row) : Row :=
  match i, r with
  | O, [] => [v]
  | O, _ :: r' => v :: r'
  | S i', [] => CNull :: set_cell i' v []
  | S i', c :: r' => c :: set_cell i' v r'
  end.

(** [df[c] = f(df[c])], cell by cell *)
Definition assign (c : string) (f : cell -> cell) (df : DataFrame)
  : DataFrame :=
  match col_index c (columns df) with
  | Some i =>
      mkFrame (columns df)
              (map (fun r => set_cell i (f (nth i r CNull)) r) (rows df))
  | None => df
  end.

(** [df.dropna(subset=cs)]: keep the rows with a value in every column of
    [cs], in their order. *)
Definition complete (cols cs : list string) (r : Row) : bool :=
  forallb (fun c => negb (isna (loc cols c r))) cs.

Definition dropna (cs : list string) (df : DataFrame) : DataFrame :=
  mkFrame (columns df) (filter (complete (columns df) cs) (rows df)).

(** [pd.to_numeric(x, errors="coerce")] on one cell; [parse] is pandas'
    reading of a string as a number. *)
Definition to_numeric (parse : string -> option (Z + float)) (c : cell)
  : cell :=
  match c with
  | CStr s =>
      match parse s with
      | Some (inl z) => CInt z
      | Some (inr f) => CFloat f
      | None => CNull
      end
  | _ => c
  end.

(** ** [df.sort_values(by=...)]

    Ascending, stable, lexicographic over the columns of [by], missing
    values last.  A column that holds numbers and strings at once has no
    Python order; pandas releases differ on whether the sorter then raises
    [TypeError] or puts the numbers first, which is the flag [strict]. *)
Inductive cell_class : Type := ClsNum | ClsStr | ClsNull.

Definition class_of (c : cell) : cell_class :=
  if isna c then ClsNull
  else match c with CStr _ => ClsStr | _ => ClsNum end.

Definition to_float (c : cell) : float :=
  match c with
  | CInt z => float_of_Z z
  | CFloat f => f
  | _ => PrimFloat.nan
  end.

Definition num_compare (a b : cell) : comparison :=
  match a, b with
  | CInt x, CInt y => Z.compare x y
  | _, _ =>
      match PrimFloat.compare (to_float a) (to_float b) with
      | FLt => Lt
      | FGt => Gt
      | FEq | FNotComparable => Eq
      end
  end.

Definition cell_compare (a b : cell) : comparison :=
  match class_of a, class_of b with
  | ClsNull, ClsNull => Eq
  | ClsNull, _ => Gt
  | _, ClsNull => Lt
  | ClsNum, ClsNum => num_compare a b
  | ClsNum, ClsStr => Lt
  | ClsStr, ClsNum => Gt
  | ClsStr, ClsStr =>
      match a, b with
      | CStr s, CStr t => String.compare s t
      | _, _ => Eq
      end
  end.

Fixpoint row_compare (cols by_ : list string) (r1 r2 : Row) : comparison :=
  match by_ with
  | [] => Eq
  | c :: by' =>
      match cell_compare (loc cols c r1) (loc cols c r2) with
      | Eq => row_compare cols by' r1 r2
      | o => o
      end
  end.

Definition row_leb (cols by_ : list string) (r1 r2 : Row) : bool :=
  match row_compare cols by_ r1 r2 with
  | Gt => false
  | _ => true
  end.

Definition is_class (k : cell_class) (c : cell) : bool :=
  match class_of c, k with
  | ClsNum, ClsNum | ClsStr, ClsStr | ClsNull, ClsNull => true
  | _, _ => false
  end.

Definition mixed_column (df : DataFrame) (c : string) : bool :=
  let cells := map (loc (columns df) c) (rows df) in
  existsb (is_class ClsNum) cells && existsb (is_class ClsStr) cells.

Definition sort_values (strict : bool) (by_ : list string) (df : DataFrame)
  : exn + DataFrame :=
  if strict && existsb (mixed_column df) by_ then inl TypeError
  else inr (mkFrame (columns df)
                    (sorted (row_leb (columns df) by_) (rows df))).

(** ** [df.groupby(keys, sort=False)] on four key columns

    Iterating the result yields one pair (key, group) per distinct key, in
    the order the keys first appear; a group holds its rows in frame
    order.  Rows with a missing value in a key column are in no group. *)
Definition key4 : Type := cell * cell * cell * cell.

Definition key4_eqb (k k' : key4) : bool :=
  let '(a, b, c, d) := k in
  let '(a', b', c', d') := k' in
  cell_eqb a a' && cell_eqb b b' && cell_eqb c c' && cell_eqb d d'.

Definition key4_isna (k : key4) : bool :=
  let '(a, b, c, d) := k in isna a || isna b || isna c || isna d.

Definition row_key (cols : list string) (ks : string * string * string * string)
  (r : Row) : key4 :=
  let '(k1, k2, k3, k4) := ks in
  (loc cols k1 r, loc cols k2 r, loc cols k3 r, loc cols k4 r).

Definition add_to_group (k : key4) (r : Row) (gs : list (key4 * list Row))
  : list (key4 * list Row) :=
  upsert key4_eqb k [r] (fun rs => rs ++ [r]) gs.

Definition group_rows (cols : list string)
  (ks : string * string * string * string) (rs : list Row)
  : list (key4 * list Row) :=
  fold_left
    (fun gs r =>
       let k := row_key cols ks r in
       if key4_isna k then gs else add_to_group k r gs)
    rs [].

Definition groupby (ks : string * string * string * string) (df : DataFrame)
  : list (key4 * DataFrame) :=
  map (fun g => (fst g, mkFrame (columns df) (snd g)))
      (group_rows (columns df) ks (rows df)).

End Pandas.

Export Pandas.

(* ================================================================== *)
(** * [logic/monthly_distance.py] *)
(* ================================================================== *)

Module MonthlyDistance.

(** What the module takes from its libraries and from the interpreter:
    - [read_excel]: [pd.read_excel]; the frame, or the text of the
      exception it raised;
    - [numeric_of_str]: how [pd.to_numeric] reads a string;
    - [sort_rejects_mixed]: whether [sort_values] raises on a key column
      that mixes numbers and strings;
    - [float_of_str], [int_of_str]: [float(s)] and [int(s)], [None] for
      [ValueError];
    - [repr_float]: [str(x)] of a float;
    - [unicode_lower]: [s.lower()] for a text [s] with a character beyond
      ASCII;
    - [geodesic_km]: [geopy.distance.geodesic(a, b).km], [None] when it
      raises;
    - [round2]: the built-in [round(x, 2)]. *)
Class Externals : Type := {
  read_excel : string -> string + DataFrame;
  numeric_of_str : string -> option (Z + float);
  sort_rejects_mixed : bool;
  float_of_str : string -> option float;
  int_of_str : string -> option Z;
  repr_float : float -> string;
  unicode_lower : string -> string;
  geodesic_km : float * float -> float * float -> option float;
  round2 : float -> float
}.

(** ** Runs: what was called, and how the call ended *)
Inductive op : Type :=
| ReadExcel
| DropNa
| ToNumeric
| SortValues
| GroupBy
| DayDistance.

Inductive outcome (A : Type) : Type :=
| Returned (a : A)
| Raised (e : exn).
Arguments Raised {A} e.

Definition Run (A : Type) : Type := (list op * outcome A)%type.

Definition ret {A : Type} (a : A) : Run A := ([], Returned a).

Definition bind {A B : Type} (m : Run A) (k : A -> Run B) : Run B :=
  match m with
  | (l, Returned a) => let (l', o) := k a in (l ++ l', o)
  | (l, Raised e) => (l, Raised e)
  end.

(** a library call that cannot raise *)
Definition call {A : Type} (o : op) (a : A) : Run A := ([o], Returned a).

(** a step that may raise *)
Definition try_call {A : Type} (l : list op) (x : exn + A) : Run A :=
  match x with
  | inr a => (l, Returned a)
  | inl e => (l, Raised e)
  end.

Notation "x <- m ;; k" := (bind m (fun x => k))
  (at level 61, m at next level, right associativity).
Notation "' pat <- m ;; k" := (bind m (fun x => match x with pat => k end))
  (at level 61, pat pattern, m at next level, right associativity).

(** ** The result dict *)
Record DayResult : Type := mkDay {
  day_SO_NAME : cell;
  day_SO_ERP_ID : cell;
  WEEK : cell;
  DAY : string;
  DISTANCE_KM : float;
  OUTLETS_VISITED : Z
}.

Record SummaryEntry : Type := mkSummary {
  SO_NAME : cell;
  SO_ERP_ID : cell;
  TOTAL_MONTHLY_DISTANCE_KM : float
}.

Inductive Result : Type :=
| Success (summary : list SummaryEntry) (daily_breakdown : list DayResult)
| Error (message : string).

Definition required_cols : list string :=
  ["SO NAME"; "SO_ERP_ID"; "Latitude"; "Longitude"; "WEEK"; "DAY";
   "VISIT_ORDER"]%string.

(** the [for col in required_cols] loop: the first column the header lacks *)
Fixpoint first_missing (cols req : list string) : option string :=
  match req with
  | [] => None
  | col :: req' =>
      if has_column cols col then first_missing cols req' else Some col
  end.

(** ** [results = defaultdict(float)], in insertion order *)
Definition key2 : Type := cell * cell.

Definition key2_eqb (k k' : key2) : bool :=
  cell_eqb (fst k) (fst k') && cell_eqb (snd k) (snd k').

Definition results_t : Type := list (key2 * float).

(** [results[k] += v]; a key met for the first time starts from the [0.0]
    of [defaultdict(float)] *)
Definition results_add (k : key2) (v : float) (d : results_t) : results_t :=
  upsert key2_eqb k (0 + v)%float (fun x => (x + v)%float) d.

(** the key [sorted] is given: two strings, compared as a tuple *)
Definition tuple_leb (a b : string * string) : bool :=
  match String.compare (fst a) (fst b) with
  | Lt => true
  | Gt => false
  | Eq => String.leb (snd a) (snd b)
  end.

Section WithExternals.
Context {X : Externals}.

(** ** Built-ins on cells *)
Definition py_str (c : cell) : string :=
  match c with
  | CNull => "nan"
  | CInt z => NilZero.string_of_int (Z.to_int z)
  | CFloat f => repr_float f
  | CStr s => s
  end.

Definition py_int (c : cell) : exn + Z :=
  match c with
  | CInt z => inr z
  | CFloat f =>
      match float_trunc f with
      | Some z => inr z
      | None => inl (if PrimFloat.is_nan f then ValueError else OverflowError)
      end
  | CStr s =>
      match int_of_str s with
      | Some z => inr z
      | None => inl ValueError
      end
  | CNull => inl ValueError
  end.

Definition py_float (c : cell) : exn + float :=
  match c with
  | CInt z =>
      let f := float_of_Z z in
      if PrimFloat.is_infinity f then inl OverflowError else inr f
  | CFloat f => inr f
  | CStr s =>
      match float_of_str s with
      | Some f => inr f
      | None => inl ValueError
      end
  | CNull => inr PrimFloat.nan
  end.

(** [series.astype(float)] *)
Fixpoint astype_float (cells : list cell) : exn + list float :=
  match cells with
  | [] => inr []
  | c :: cells' =>
      match py_float c with
      | inl e => inl e
      | inr f =>
          match astype_float cells' with
          | inl e => inl e
          | inr fs => inr (f :: fs)
          end
      end
  end.

(** ** [calculate_total_distance_for_day] *)

(** one turn of [for i in range(len(coords) - 1)]: the [try] covers the two
    subscripts and the call, and [except Exception: continue] leaves
    [total_km] as it was *)
Definition day_step (coords : list (float * float)) (total_km : float)
  (i : nat) : float :=
  match nth_error coords i, nth_error coords (i + 1) with
  | Some a, Some b =>
      match geodesic_km a b with
      | Some km => (total_km + km)%float
      | None => total_km
      end
  | _, _ => total_km
  end.

Definition calculate_total_distance_for_day (coords : list (float * float))
  : float :=
  if (List.length coords <=? 1)%nat then 0%float
  else
    let total_km :=
      fold_left (day_step coords) (seq 0 (List.length coords - 1)) 0%float in
    round2 total_km.

(** ** [calculate_monthly_distance] *)

Definition column (c : string) (df : DataFrame) : list cell :=
  map (loc (columns df) c) (rows df).

(** the body of [for (so_name, so_erp, week, day), group in day_groups] *)
Definition process_group (st : results_t * list DayResult)
  (g : key4 * DataFrame) : Run (results_t * list DayResult) :=
  let '(results, detailed) := st in
  let '((so_name, so_erp, week, day), group) := g in
  lat <- try_call [] (astype_float (column "Latitude" group)) ;;
  lon <- try_call [] (astype_float (column "Longitude" group)) ;;
  let coords := combine lat lon in
  total_km <- call DayDistance (calculate_total_distance_for_day coords) ;;
  let results := results_add (so_name, so_erp) total_km results in
  wk <- (if negb (isna week)
         then try_call [] (match py_int week with
                           | inl e => inl e
                           | inr z => inr (CInt z)
                           end)
         else ret week) ;;
  ret (results,
       detailed ++ [mkDay so_name so_erp wk (py_str day) total_km
                          (Z.of_nat (List.length coords))]).

Fixpoint for_each_group (gs : list (key4 * DataFrame))
  (st : results_t * list DayResult) : Run (results_t * list DayResult) :=
  match gs with
  | [] => ret st
  | g :: gs' => st' <- process_group st g ;; for_each_group gs' st'
  end.

Definition summary_key (x : SummaryEntry) : string * string :=
  (lower unicode_lower (py_str (SO_NAME x)), py_str (SO_ERP_ID x)).

Definition summary_leb (x y : SummaryEntry) : bool :=
  tuple_leb (summary_key x) (summary_key y).

Definition total_summary_of (results : results_t) : list SummaryEntry :=
  map (fun kv => mkSummary (fst (fst kv)) (snd (fst kv)) (round2 (snd kv)))
      results.

Definition calculate_monthly_distance (file_path : string) : Run Result :=
  match read_excel file_path with
  | inl e =>
      call ReadExcel (Error ("Failed to read Excel file: " ++ e)%string)
  | inr df =>
      df <- call ReadExcel df ;;
      match first_missing (columns df) required_cols with
      | Some col => ret (Error ("Missing column: " ++ col)%string)
      | None =>
          df <- call DropNa (dropna ["Latitude"; "Longitude"]%string df) ;;
          df <- (if has_column (columns df) "VISIT_ORDER"
                 then call ToNumeric
                        (assign "VISIT_ORDER" (to_numeric numeric_of_str) df)
                 else ret df) ;;
          df <- try_call [SortValues]
                  (sort_values sort_rejects_mixed
                     ["SO NAME"; "SO_ERP_ID"; "WEEK"; "DAY";
                      "VISIT_ORDER"]%string df) ;;
          day_groups <- call GroupBy
                          (groupby ("SO NAME", "SO_ERP_ID", "WEEK", "DAY")%string
                                   df) ;;
          '(results, detailed) <- for_each_group day_groups ([], []) ;;
          let total_summary := total_summary_of results in
          let total_summary := sorted summary_leb total_summary in
          ret (Success total_summary detailed)
      end
  end.

End WithExternals.

End MonthlyDistance.

Export MonthlyDistance.

(* ================================================================== *)
(** * The specification's vocabulary *)
(* ================================================================== *)

Module Spec.

Section WithExternals.
Context {X : Externals}.

(** ** The day's path *)

(** each point with the next one, in the given order *)
Fixpoint consecutive_pairs (coords : list (float * float))
  : list ((float * float) * (float * float)) :=
  match coords with
  | a :: ((b :: _) as rest) => (a, b) :: consecutive_pairs rest
  | _ => []
  end.

(** a sum of kilometres, taken from the left as the loop takes it *)
Definition sum_km (kms : list float) : float :=
  fold_left PrimFloat.add kms 0%float.

(** the distances of the pairs of [ps] whose geodesic computation
    succeeds, in order *)
Definition kms_of (ps : list ((float * float) * (float * float)))
  : list float :=
  flat_map (fun p => match geodesic_km (fst p) (snd p) with
                     | Some km => [km]
                     | None => []
                     end) ps.

Definition successful_kms (coords : list (float * float)) : list float :=
  kms_of (consecutive_pairs coords).

(** what one pair does to the running total *)
Definition add_km (total_km : float) (p : (float * float) * (float * float))
  : float :=
  match geodesic_km (fst p) (snd p) with
  | Some km => (total_km + km)%float
  | None => total_km
  end.

(** ** The steps of [calculate_monthly_distance], without the log *)

(** the frame handed to [sort_values]: rows with both coordinates, visit
    order coerced to a number *)
Definition coerced (df : DataFrame) : DataFrame :=
  assign "VISIT_ORDER" (to_numeric numeric_of_str)
         (dropna ["Latitude"; "Longitude"]%string df).

Definition sort_keys : list string :=
  ["SO NAME"; "SO_ERP_ID"; "WEEK"; "DAY"; "VISIT_ORDER"]%string.

Definition group_keys : string * string * string * string :=
  ("SO NAME", "SO_ERP_ID", "WEEK", "DAY")%string.

(** the (salesperson name, salesperson id, week, day) of a row *)
Definition day_key (df : DataFrame) (r : Row) : key4 :=
  row_key (columns df) group_keys r.

(** the Day Result of one Day Group, or the exception its conversions
    raise *)
Definition day_result (g : key4 * DataFrame) : exn + DayResult :=
  let '((so_name, so_erp, week, day), group) := g in
  match astype_float (column "Latitude" group) with
  | inl e => inl e
  | inr lat =>
      match astype_float (column "Longitude" group) with
      | inl e => inl e
      | inr lon =>
          let coords := combine lat lon in
          let total_km := calculate_total_distance_for_day coords in
          match (if negb (isna week)
                 then match py_int week with
                      | inl e => inl e
                      | inr z => inr (CInt z)
                      end
                 else inr week) with
          | inl e => inl e
          | inr wk =>
              inr (mkDay so_name so_erp wk (py_str day) total_km
                         (Z.of_nat (List.length coords)))
          end
      end
  end.

Fixpoint day_results (gs : list (key4 * DataFrame))
  : exn + list DayResult :=
  match gs with
  | [] => inr []
  | g :: gs' =>
      match day_result g with
      | inl e => inl e
      | inr d =>
          match day_results gs' with
          | inl e => inl e
          | inr ds => inr (d :: ds)
          end
      end
  end.

(** ** Salespeople, days and the order of the summary *)

(** the salesperson of a Day Result and of a Monthly Summary Entry *)
Definition day_salesperson (d : DayResult) : key2 :=
  (day_SO_NAME d, day_SO_ERP_ID d).

Definition salesperson (e : SummaryEntry) : key2 :=
  (SO_NAME e, SO_ERP_ID e).

(** the Day Results of a salesperson, in breakdown order *)
Definition days_of (k : key2) (breakdown : list DayResult)
  : list DayResult :=
  filter (fun d => key2_eqb k (day_salesperson d)) breakdown.

Definition add_day (results : results_t) (d : DayResult) : results_t :=
  results_add (day_salesperson d) (DISTANCE_KM d) results.

(** a row whose coordinates convert to [float] and whose week converts to
    [int] *)
Definition float_ok (c : cell) : bool :=
  match py_float c with
  | inr _ => true
  | inl _ => false
  end.

Definition int_ok (c : cell) : bool :=
  isna c || match py_int c with
            | inr _ => true
            | inl _ => false
            end.

Definition row_ok (df : DataFrame) (r : Row) : bool :=
  float_ok (loc (columns df) "Latitude" r)
  && float_ok (loc (columns df) "Longitude" r)
  && int_ok (loc (columns df) "WEEK" r).

(** the order of the summary, as the specification words it: by name
    without regard to case, and by the id as a string among equal names *)
Definition str_lt (s t : string) : Prop := String.compare s t = Lt.

Definition str_le (s t : string) : Prop := String.compare s t <> Gt.

Definition summary_le (x y : SummaryEntry) : Prop :=
  let nx := lower unicode_lower (py_str (SO_NAME x)) in
  let ny := lower unicode_lower (py_str (SO_NAME y)) in
  str_lt nx ny
  \/ (nx = ny /\ str_le (py_str (SO_ERP_ID x)) (py_str (SO_ERP_ID y))).

End WithExternals.

(** [needle in hay] on strings *)
Fixpoint occurs (needle hay : string) : bool :=
  String.prefix needle hay
  || match hay with
     | EmptyString => false
     | String _ hay' => occurs needle hay'
     end.

End Spec.

Export Spec.

(* ================================================================== *)
(** * A concrete run-time for the examples *)
(* ================================================================== *)

Module Demo.

Open Scope string_scope.

(** a decimal numeral without sign *)
Fixpoint digits_value (s : string) (acc : Z) : option Z :=
  match s with
  | EmptyString => Some acc
  | String a s' =>
      let n := Z.of_nat (nat_of_ascii a) in
      if ((48 <=? n) && (n <=? 57))%Z
      then digits_value s' (10 * acc + (n - 48))%Z
      else None
  end.

Definition parse_digits (s : string) : option Z :=
  match s with
  | EmptyString => None
  | _ => digits_value s 0%Z
  end.

(** nearest hundredth, for values far below [2^51 / 100] *)
Definition round_hundredths (x : float) : float :=
  ((x * 100 + 4503599627370496) - 4503599627370496) / 100.

(** a stand-in for the geodesic: degrees apart along the two axes, at
    111.25 km a degree, and a failure for a latitude off the globe *)
Definition on_globe (p : float * float) : bool :=
  PrimFloat.leb (-90) (fst p) && PrimFloat.leb (fst p) 90.

Definition grid_km (a b : float * float) : option float :=
  if on_globe a && on_globe b
  then Some ((PrimFloat.abs (fst a - fst b) + PrimFloat.abs (snd a - snd b))
             * 111.25)%float
  else None.

Definition header : list string :=
  ["SO NAME"; "SO_ERP_ID"; "Latitude"; "Longitude"; "WEEK"; "DAY";
   "VISIT_ORDER"].

Definition visit (so : string) (erp : Z) (lat lon : float) (week : Z)
  (day : string) (order : Z) : Row :=
  [CStr so; CInt erp; CFloat lat; CFloat lon; CInt week; CStr day;
   CInt order].

(** two salespeople; Bob's Monday rows are out of visiting order, one of
    alice's rows has no longitude *)
Definition visits : DataFrame :=
  mkFrame header
    [ visit "Bob" 7 10.5 76.25 1 "Mon" 3;
      visit "Bob" 7 10 76 1 "Mon" 1;
      visit "alice" 3 9 76 1 "Mon" 1;
      visit "Bob" 7 10.25 76 1 "Mon" 2;
      [CStr "alice"; CInt 3; CFloat 9.5; CNull; CInt 1; CStr "Mon";
       CInt 2];
      visit "alice" 3 9 76.5 1 "Mon" 3;
      visit "Bob" 7 10 76 1 "Tue" 1;
      visit "Bob" 7 10 76.5 1 "Tue" 2;
      visit "alice" 3 9 76 2 "Mon" 1 ].

(** a latitude typed as text *)
Definition bad_latitude : DataFrame :=
  mkFrame header
    [ [CStr "Bob"; CInt 7; CStr "abc"; CFloat 76; CInt 1; CStr "Mon";
       CInt 1] ].

(** a week typed as text *)
Definition bad_week : DataFrame :=
  mkFrame header
    [ [CStr "Bob"; CInt 7; CFloat 10; CFloat 76; CStr "W1"; CStr "Mon";
       CInt 1] ].

(** no [Latitude], no [WEEK] and no [VISIT_ORDER] column *)
Definition three_missing : DataFrame :=
  mkFrame ["SO NAME"; "SO_ERP_ID"; "Longitude"; "DAY"; "Remarks"]
    [ [CStr "Bob"; CInt 7; CFloat 76; CStr "Mon"; CStr "closed"] ].

(** an id column that holds a number and a text *)
Definition mixed_ids : DataFrame :=
  mkFrame header
    [ [CStr "Bob"; CInt 7; CFloat 10; CFloat 76; CInt 1; CStr "Mon";
       CInt 1];
      [CStr "Bob"; CStr "B-7"; CFloat 10; CFloat 76.5; CInt 1; CStr "Mon";
       CInt 2] ].

(** every row lacks a coordinate *)
Definition no_coordinates : DataFrame :=
  mkFrame header
    [ [CStr "Bob"; CInt 7; CNull; CFloat 76; CInt 1; CStr "Mon"; CInt 1];
      [CStr "Bob"; CInt 7; CFloat 10; CNull; CInt 1; CStr "Mon"; CInt 2];
      [CStr "alice"; CInt 3; CNull; CNull; CInt 1; CStr "Mon"; CInt 1] ].

(** a text latitude on a row without a longitude, and a text week on a row
    without a name: neither row reaches a conversion *)
Definition skipped_text : DataFrame :=
  mkFrame header
    [ visit "Bob" 7 10 76 1 "Mon" 1;
      [CStr "Bob"; CInt 7; CStr "abc"; CNull; CInt 1; CStr "Mon"; CInt 2];
      [CNull; CInt 7; CFloat 10; CFloat 76; CStr "W1"; CStr "Mon"; CInt 3];
      visit "Bob" 7 10.25 76 1 "Mon" 4 ].

(** two names that differ in the case of an accented first letter *)
Definition accents : DataFrame :=
  mkFrame header
    [ visit "Émile" 7 10 76 1 "Mon" 1;
      visit "élan" 3 9 76 1 "Mon" 1 ].

Definition files (file_path : string) : string + DataFrame :=
  if file_path =? "uploads/visits.xlsx" then inr visits
  else if file_path =? "uploads/bad_latitude.xlsx" then inr bad_latitude
  else if file_path =? "uploads/bad_week.xlsx" then inr bad_week
  else if file_path =? "uploads/three_missing.xlsx" then inr three_missing
  else if file_path =? "uploads/mixed_ids.xlsx" then inr mixed_ids
  else if file_path =? "uploads/no_coordinates.xlsx" then inr no_coordinates
  else if file_path =? "uploads/skipped_text.xlsx" then inr skipped_text
  else if file_path =? "uploads/accents.xlsx" then inr accents
  else inl "File is not a zip file".

(** A stand-in for the case tables, right on the Latin-1 letters: UTF-8
    writes the capitals from A-grave to Thorn as the byte 195 and a byte
    from 128 to 158 (151 is the multiplication sign), and the small letter
    has the second byte 32 higher. *)
Definition latin1_capital (a b : ascii) : bool :=
  ((nat_of_ascii a =? 195) && (128 <=? nat_of_ascii b)
   && (nat_of_ascii b <=? 158) && negb (nat_of_ascii b =? 151))%nat.

Fixpoint latin1_lower (s : string) : string :=
  match s with
  | EmptyString => EmptyString
  | String a EmptyString => String (ascii_lower a) EmptyString
  | String a ((String b s') as rest) =>
      if latin1_capital a b
      then String a (String (ascii_of_nat (nat_of_ascii b + 32))
                            (latin1_lower s'))
      else String (ascii_lower a) (latin1_lower rest)
  end.


Definition runtime : Externals := {|
  read_excel := files;
  numeric_of_str := fun s => option_map inl (parse_digits s);
  sort_rejects_mixed := true;
  float_of_str := fun s => option_map float_of_Z (parse_digits s);
  int_of_str := parse_digits;
  repr_float := fun f =>
    match float_integral f with
    | Some z => NilZero.string_of_int (Z.to_int z) ++ ".0"
    | None => "nan"
    end;
  unicode_lower := latin1_lower;
  geodesic_km := grid_km;
  round2 := round_hundredths
|}.

(** the same run-time with a pandas whose sorter orders numbers before
    strings instead of raising *)
Definition lenient_runtime : Externals := {|
  read_excel := files;
  numeric_of_str := @numeric_of_str runtime;
  sort_rejects_mixed := false;
  float_of_str := @float_of_str runtime;
  int_of_str := @int_of_str runtime;
  repr_float := @repr_float runtime;
  unicode_lower := @unicode_lower runtime;
  geodesic_km := grid_km;
  round2 := round_hundredths
|}.

(** the run on [visits], evaluated once *)
Definition visits_run : Run Result :=
  Eval vm_compute in
    (@calculate_monthly_distance runtime "uploads/visits.xlsx").

Definition visits_summary : list SummaryEntry :=
  Eval vm_compute in
    match snd visits_run with
    | Returned (Success summary _) => summary
    | _ => []
    end.

Definition visits_breakdown : list DayResult :=
  Eval vm_compute in
    match snd visits_run with
    | Returned (Success _ daily_breakdown) => daily_breakdown
    | _ => []
    end.

(** Bob's Monday and Bob's month in that run *)
Definition bob_monday : DayResult :=
  Eval vm_compute in hd (mkDay CNull CNull CNull "" 0 0) visits_breakdown.

(** alice's Monday of week 1: three rows in the sheet, one without a
    longitude *)
Definition alice_monday : DayResult :=
  Eval vm_compute in nth 2 visits_breakdown bob_monday.

Definition bob_month : SummaryEntry :=
  Eval vm_compute in nth 1 visits_summary (mkSummary CNull CNull 0).

(** a day with three outlets, and a day whose second point is off the
    globe *)
Definition three_outlets : list (float * float) :=
  [(10, 76); (10.25, 76); (10.5, 76.25)]%float.

Definition one_bad_point : list (float * float) :=
  [(10, 76); (100, 76); (10.5, 76); (10.5, 76.5)]%float.

End Demo.

(* ================================================================== *)
(** * Words for the shape of the result *)
(* ================================================================== *)

Module Breakdown.

Section WithExternals.
Context {X : Externals}.

(** the rows a Day Result can stand for: both coordinates present, and a
    name, an id, a week and a day *)
Definition countable_rows (df : DataFrame) : list Row :=
  filter (fun r => negb (key4_isna (day_key df r)))
         (rows (dropna ["Latitude"; "Longitude"]%string df)).

(** the sum of OUTLETS_VISITED over a breakdown *)
Definition outlets_total (breakdown : list DayResult) : Z :=
  fold_right Z.add 0%Z (map OUTLETS_VISITED breakdown).

(** [d] is the Day Result of the day key [k] *)
Definition stands_for (k : key4) (d : DayResult) : Prop :=
  let '(so_name, so_erp, week, day) := k in
  day_SO_NAME d = so_name
  /\ day_SO_ERP_ID d = so_erp
  /\ (exists z, py_int week = inr z /\ WEEK d = CInt z)
  /\ DAY d = py_str day.

(** the coordinates of the rows of a group, as the loop zips them *)
Definition coords_of (cols : list string) (rs : list Row)
  : exn + list (float * float) :=
  match astype_float (map (loc cols "Latitude") rs) with
  | inl e => inl e
  | inr lat =>
      match astype_float (map (loc cols "Longitude") rs) with
      | inl e => inl e
      | inr lon => inr (combine lat lon)
      end
  end.

(** [d] is what the loop makes of the group [g]: the Day Result of its
    key, counting its rows, with the distance of the path through their
    coordinates in the order of the group *)
Definition from_group (cols : list string) (g : key4 * list Row)
  (d : DayResult) : Prop :=
  stands_for (fst g) d
  /\ OUTLETS_VISITED d = Z.of_nat (List.length (snd g))
  /\ exists coords,
       coords_of cols (snd g) = inr coords
       /\ List.length coords = List.length (snd g)
       /\ DISTANCE_KM d = calculate_total_distance_for_day coords.

End WithExternals.

End Breakdown.

Export Breakdown.

(* ================================================================== *)
(** * [main.py]: the endpoints *)
(* ================================================================== *)

Module Server.

(** The disk, as far as the endpoints use it: the bytes stored under a
    path. *)
Definition FS : Type := string -> option (list Byte.byte).

Definition write (fs : FS) (path : string) (data : list Byte.byte) : FS :=
  fun p => if String.eqb p path then Some data else fs p.

(** [UploadFile]: the name the client gave and the bytes it sent *)
Record UploadFile : Type := mkUpload {
  filename : string;
  file : list Byte.byte
}.

Definition UPLOAD_DIR : string := "uploads".

Fixpoint ends_with_slash (s : string) : bool :=
  match s with
  | EmptyString => false
  | String a EmptyString => Ascii.eqb a "/"
  | String _ s' => ends_with_slash s'
  end.

(** [os.path.join(a, b)] on two parts *)
Definition path_join (a b : string) : string :=
  if String.prefix "/" b then b
  else match a with
       | EmptyString => b
       | _ => if ends_with_slash a then (a ++ b)%string
              else (a ++ "/" ++ b)%string
       end.

(** what the [try] of an endpoint can meet: an [OSError] from [open] or
    [copyfileobj], an exception out of [calculate_monthly_distance], an
    exception out of the route logic (with its text), an exception of
    [JSONResponse] while it renders its content *)
Inductive failure : Type :=
| OSError (text : string)
| LogicError (e : exn)
| RouteError (text : string)
| RenderError.

Section Endpoints.

(** the dict the route logic returns; that module is not modelled *)
Variable route_result : Type.

(** the content of a [JSONResponse]: a result dict of the distance logic
    or of the route logic, [{"status": "error", "message": m}] for a text
    [m], or the same dict for [m = str(e)] *)
Inductive Body : Type :=
| Payload (result : Result)
| RoutePayload (result : route_result)
| ErrorMessage (m : string)
| ErrorOf (e : failure).

Record Response : Type := mkResponse {
  content : Body;
  status_code : Z
}.

(** how a request ends: with a response, or with the exception the
    handler of the endpoint itself raised *)
Inductive reply : Type :=
| Answered (r : Response)
| Propagated (e : failure).

(** What the endpoints take from the machine and from the modules they
    import:
    - [write_failure fs path data]: [None] when [open(path, "wb")] and
      [copyfileobj] succeed, else the text of the exception and the disk as
      it was left;
    - [excel_of_bytes]: what [pd.read_excel] makes of a file with these
      bytes;
    - [import_failure]: the text of the exception of
      [from logic.monthly_distance import ...], if it raises;
    - [renders]: whether [JSONResponse(content=...)] can encode the
      content ([json.dumps] raises on a numpy integer or a [nan]);
    - [process_route], [get_day_summary]: the route logic, with the disk it
      leaves; [inl] is the text of an exception;
    - [route_is_error]: [result.get("status") == "error"]. *)
Class Host : Type := {
  write_failure : FS -> string -> list Byte.byte -> option (string * FS);
  excel_of_bytes : list Byte.byte -> string + DataFrame;
  import_failure : option string;
  renders : Body -> bool;
  process_route :
    FS -> string -> string -> string -> string -> Z -> string
    -> (string + route_result) * FS;
  get_day_summary :
    FS -> string -> Z -> string -> (string + route_result) * FS;
  route_is_error : route_result -> bool
}.

Context {X : Externals} {H : Host}.

(** [pd.read_excel(path)] on the disk [fs] *)
Definition read_from (fs : FS) (path : string) : string + DataFrame :=
  match fs path with
  | Some data => excel_of_bytes data
  | None =>
      inl ("[Errno 2] No such file or directory: '" ++ path ++ "'")%string
  end.

(** the distance logic run on the disk [fs] *)
Definition on_disk (fs : FS) : Externals := {|
  read_excel := read_from fs;
  numeric_of_str := @numeric_of_str X;
  sort_rejects_mixed := @sort_rejects_mixed X;
  float_of_str := @float_of_str X;
  int_of_str := @int_of_str X;
  repr_float := @repr_float X;
  unicode_lower := @unicode_lower X;
  geodesic_km := @geodesic_km X;
  round2 := @round2 X
|}.

(** [with open(path, "wb") as f: shutil.copyfileobj(upload.file, f)] *)
Definition save (fs : FS) (path : string) (upload : UploadFile)
  : failure + FS :=
  match write_failure fs path (file upload) with
  | Some (text, _) => inl (OSError text)
  | None => inr (write fs path (file upload))
  end.

Definition disk_after_save (fs : FS) (path : string) (upload : UploadFile)
  : FS :=
  match write_failure fs path (file upload) with
  | Some (_, fs') => fs'
  | None => write fs path (file upload)
  end.

(** [JSONResponse(content=body, status_code=code)] *)
Definition json_response (body : Body) (code : Z) : failure + Response :=
  if renders body then inr (mkResponse body code) else inl RenderError.

(** [except Exception as e: return JSONResponse(..., status_code=500)] *)
Definition handle (attempt : failure + Response) : reply :=
  match attempt with
  | inr r => Answered r
  | inl e =>
      match json_response (ErrorOf e) 500 with
      | inr r => Answered r
      | inl e' => Propagated e'
      end
  end.

(** [result.get("status") == "error"] *)
Definition is_error (result : Result) : bool :=
  match result with
  | Error _ => true
  | Success _ _ => false
  end.

(** [POST /monthly-distance/] *)
Definition monthly_distance (fs : FS) (data_file : UploadFile)
  : reply * FS :=
  let file_path := path_join UPLOAD_DIR (filename data_file) in
  (handle
     match save fs file_path data_file with
     | inl e => inl e
     | inr fs' =>
         match import_failure with
         | Some imp_err =>
             let msg :=
               ("ImportError: failed to import logic.monthly_distance: "
                  ++ imp_err)%string in
             json_response (ErrorMessage msg) 500
         | None =>
             match snd (@calculate_monthly_distance (on_disk fs')
                                                    file_path) with
             | Raised e => inl (LogicError e)
             | Returned result =>
                 if is_error result
                 then json_response (Payload result) 400
                 else json_response (Payload result) 200
             end
         end
     end,
   disk_after_save fs file_path data_file).

(** [POST /generate-route/] *)
Definition generate_route (fs : FS) (data_file format_file : UploadFile)
  (so_name so_erp : string) (week : Z) (day : string) : reply * FS :=
  let input_data_path := path_join UPLOAD_DIR (filename data_file) in
  let format_data_path := path_join UPLOAD_DIR (filename format_file) in
  match save fs input_data_path data_file with
  | inl e => (handle (inl e), disk_after_save fs input_data_path data_file)
  | inr fs1 =>
      match save fs1 format_data_path format_file with
      | inl e =>
          (handle (inl e),
           disk_after_save fs1 format_data_path format_file)
      | inr fs2 =>
          let '(outcome, fs3) :=
            process_route fs2 input_data_path format_data_path so_name
                          so_erp week day in
          (handle
             match outcome with
             | inl text => inl (RouteError text)
             | inr result =>
                 if route_is_error result
                 then json_response (RoutePayload result) 400
                 else json_response (RoutePayload result) 200
             end,
           fs3)
      end
  end.

(** [GET /day-summary/] *)
Definition day_summary (fs : FS) (so_name : string) (week : Z)
  (day : string) : reply * FS :=
  let '(outcome, fs') := get_day_summary fs so_name week day in
  (handle
     match outcome with
     | inl text => inl (RouteError text)
     | inr result =>
         if route_is_error result
         then json_response (RoutePayload result) 400
         else json_response (RoutePayload result) 200
     end,
   fs').

(** the ["status"] of a content *)
Definition body_is_error (body : Body) : bool :=
  match body with
  | Payload result => is_error result
  | RoutePayload result => route_is_error result
  | ErrorMessage _ | ErrorOf _ => true
  end.

(** the three kinds of answer: 200 with a result whose status is not
    "error", 400 with a result whose status is "error", 500 with an error
    dict built by the endpoint *)
Definition coded (r : Response) : Prop :=
  match content r with
  | Payload _ | RoutePayload _ =>
      if body_is_error (content r) then status_code r = 400%Z
      else status_code r = 200%Z
  | ErrorMessage _ | ErrorOf _ => status_code r = 500%Z
  end.

End Endpoints.

Arguments Payload {route_result} result.
Arguments RoutePayload {route_result} result.
Arguments ErrorMessage {route_result} m.
Arguments ErrorOf {route_result} e.
Arguments Answered {route_result} r.
Arguments Propagated {route_result} e.

End Server.

Export Server.

(* ================================================================== *)
(** * A concrete host for the examples *)
(* ================================================================== *)

Module DemoServer.

Open Scope string_scope.

(** the route logic of the examples answers with its status alone *)
Definition route_result : Type := string.

(** a sheet is told by its first byte *)
Definition sheet_of (data : list Byte.byte) : string + DataFrame :=
  match data with
  | Byte.x01 :: _ => inr Demo.visits
  | Byte.x02 :: _ => inr Demo.three_missing
  | Byte.x03 :: _ => inr Demo.bad_latitude
  | _ => inl "File is not a zip file"
  end.

(** writing to a path that ends with a slash fails, as a directory *)
Definition directory_error (fs : FS) (path : string)
  (data : list Byte.byte) : option (string * FS) :=
  if ends_with_slash path
  then Some ("[Errno 21] Is a directory: '" ++ path ++ "'", fs)
  else None.

Definition host : Host route_result := {|
  write_failure := directory_error;
  excel_of_bytes := sheet_of;
  import_failure := None;
  renders := fun _ => true;
  process_route := fun fs input_path format_path so_name so_erp week day =>
    match fs input_path with
    | Some (Byte.x01 :: _) => (inr "success", fs)
    | Some _ => (inr "error", fs)
    | None => (inl "No such file", fs)
    end;
  get_day_summary := fun fs so_name week day =>
    (if so_name =? "" then inr "error" else inr "success", fs);
  route_is_error := fun status => status =? "error"
|}.

(** a host whose [JSONResponse] refuses a result with a distance that is
    [nan] or infinite, as [json.dumps(..., allow_nan=False)] does *)
Definition is_finite (f : float) : bool :=
  negb (PrimFloat.is_nan f) && negb (PrimFloat.is_infinity f).

Definition finite_result (result : Result) : bool :=
  match result with
  | Success summary daily_breakdown =>
      forallb (fun e => is_finite (TOTAL_MONTHLY_DISTANCE_KM e)) summary
      && forallb (fun d => is_finite (DISTANCE_KM d)) daily_breakdown
  | Error _ => true
  end.

Definition careful_host : Host route_result := {|
  write_failure := directory_error;
  excel_of_bytes := sheet_of;
  import_failure := None;
  renders := fun body =>
    match body with
    | Payload result => finite_result result
    | _ => true
    end;
  process_route := @process_route _ host;
  get_day_summary := @get_day_summary _ host;
  route_is_error := @route_is_error _ host
|}.

Definition empty_disk : FS := fun _ => None.

Definition visits_upload : UploadFile :=
  mkUpload "visits.xlsx" [Byte.x01; Byte.x50; Byte.x4b].

Definition headless_upload : UploadFile :=
  mkUpload "three_missing.xlsx" [Byte.x02; Byte.x50; Byte.x4b].

Definition text_upload : UploadFile :=
  mkUpload "notes.txt" [Byte.x68; Byte.x69].

Definition template_upload : UploadFile :=
  mkUpload "visits.xlsx" [Byte.x02; Byte.x00].

End DemoServer.

(* ================================================================== *)
(** * Words for the order [sort_values] puts the rows in *)
(* ================================================================== *)

Module Order.



















End Order.

Export Order.

(* ================================================================== *)
(** * Properties of [calculate_total_distance_for_day] *)
(* ================================================================== *)

Section DayDistance.
Context {X : Externals}.

(** The loop over indices visits the consecutive pairs of the list. *)
Lemma day_loop_suffix (pre l : list (float * float)) (t : float) :
  fold_left (day_step (pre ++ l))
            (seq (List.length pre) (List.length l - 1)) t
  = fold_left add_km (consecutive_pairs l) t.
Proof.
  revert pre t.
  induction l as [|a l IH]; intros pre t; [reflexivity|].
  destruct l as [|b l]; [reflexivity|].
  replace (List.length (a :: b :: l) - 1)%nat with (S (List.length l))
    by (simpl; lia).
  cbn [seq fold_left consecutive_pairs].
  assert (Hstep : day_step (pre ++ a :: b :: l) t (List.length pre)
                  = add_km t (a, b)).
  { unfold day_step, add_km.
    rewrite nth_error_app2 by lia.
    rewrite Nat.sub_diag. cbn [nth_error].
    rewrite nth_error_app2 by lia.
    replace (List.length pre + 1 - List.length pre)%nat with 1%nat by lia.
    reflexivity. }
  rewrite Hstep.
  specialize (IH (pre ++ [a]) (add_km t (a, b))).
  rewrite <- app_assoc in IH. cbn [app] in IH.
  rewrite length_app in IH. cbn [List.length] in IH.
  replace (List.length pre + 1)%nat with (S (List.length pre)) in IH by lia.
  replace (S (List.length l) - 0)%nat with (S (List.length l)) in IH by lia.
  cbn [List.length] in IH.
  replace (S (List.length l) - 1)%nat with (List.length l) in IH by lia.
  exact IH.
Qed.

Lemma day_loop_pairs (coords : list (float * float)) (t : float) :
  fold_left (day_step coords) (seq 0 (List.length coords - 1)) t
  = fold_left add_km (consecutive_pairs coords) t.
Proof. exact (day_loop_suffix [] coords t). Qed.

Lemma add_km_successful (ps : list ((float * float) * (float * float)))
  (t : float) :
  fold_left add_km ps t = fold_left PrimFloat.add (kms_of ps) t.
Proof.
  revert t. induction ps as [|p ps IH]; intros t; [reflexivity|].
  unfold kms_of in *. cbn [fold_left flat_map]. rewrite fold_left_app, IH.
  unfold add_km at 1.
  destruct (geodesic_km (fst p) (snd p)); reflexivity.
Qed.

Lemma kms_of_all (ps : list ((float * float) * (float * float)))
  (kms : list float) :
  Forall2 (fun p km => geodesic_km (fst p) (snd p) = Some km) ps kms ->
  kms_of ps = kms.
Proof.
  induction 1 as [|p km ps kms Hp _ IH]; [reflexivity|].
  unfold kms_of in *. cbn [flat_map]. rewrite Hp, IH. reflexivity.
Qed.

Lemma kms_of_app (ps qs : list ((float * float) * (float * float))) :
  kms_of (ps ++ qs) = kms_of ps ++ kms_of qs.
Proof. unfold kms_of. apply flat_map_app. Qed.

Lemma day_distance_unfold (coords : list (float * float)) :
  (2 <= List.length coords)%nat ->
  calculate_total_distance_for_day coords
  = round2 (sum_km (successful_kms coords)).
Proof.
  intros Hlen. unfold calculate_total_distance_for_day.
  destruct (Nat.leb_spec (List.length coords) 1) as [H|_]; [lia|].
  cbv zeta. rewrite day_loop_pairs, add_km_successful. reflexivity.
Qed.

Lemma pairs_length (coords : list (float * float)) :
  List.length (consecutive_pairs coords) = (List.length coords - 1)%nat.
Proof.
  induction coords as [|a l IH]; [reflexivity|].
  destruct l as [|b l]; [reflexivity|].
  cbn [consecutive_pairs List.length] in *. lia.
Qed.

(** C6. With no point or a single point the day's distance is the float
    [0.0] itself. *)
Theorem day_distance_short (coords : list (float * float)) :
  (List.length coords < 2)%nat ->
  calculate_total_distance_for_day coords = 0%float.
Proof.
  intros Hlen. unfold calculate_total_distance_for_day.
  destruct (Nat.leb_spec (List.length coords) 1) as [_|H]; [reflexivity|lia].
Qed.

(** C2. For two or more points whose consecutive pairs all have a geodesic
    distance, [kms] being those distances in path order, the result is
    [round(., 2)] of their sum taken in that order. *)
Theorem day_distance_is_rounded_sum (coords : list (float * float))
  (kms : list float) :
  (2 <= List.length coords)%nat ->
  Forall2 (fun p km => geodesic_km (fst p) (snd p) = Some km)
          (consecutive_pairs coords) kms ->
  calculate_total_distance_for_day coords = round2 (sum_km kms).
Proof.
  intros Hlen Hall.
  rewrite day_distance_unfold by exact Hlen.
  unfold successful_kms. rewrite (kms_of_all Hall). reflexivity.
Qed.

(** C5. When the geodesic computation fails for a consecutive pair [p],
    the function still returns a number: [round(., 2)] of the sum of the
    distances of the pairs that succeed, those before [p] and those after
    it, in path order.  The failing pair adds nothing. *)
Theorem failed_pairs_are_skipped (coords : list (float * float))
  (before after : list ((float * float) * (float * float)))
  (p : (float * float) * (float * float)) :
  consecutive_pairs coords = before ++ p :: after ->
  geodesic_km (fst p) (snd p) = None ->
  calculate_total_distance_for_day coords
  = round2 (sum_km (kms_of before ++ kms_of after)).
Proof.
  intros Hsplit Hfail.
  rewrite day_distance_unfold.
  - unfold successful_kms. rewrite Hsplit, kms_of_app.
    change (p :: after) with ([p] ++ after). rewrite kms_of_app.
    unfold kms_of at 2. cbn [flat_map]. rewrite Hfail. reflexivity.
  - pose proof (pairs_length coords) as Hl. rewrite Hsplit in Hl.
    rewrite length_app in Hl. cbn [List.length] in Hl. lia.
Qed.

End DayDistance.

(* ================================================================== *)
(** * Facts on the Python layer *)
(* ================================================================== *)

Section PyFacts.

Lemma spec_float_eqb_eq (x y : spec_float) :
  spec_float_eqb x y = true <-> x = y.
Proof.
  destruct x as [a|a| |a m e], y as [b|b| |b n k]; cbn;
    try (split; [discriminate|congruence]); try tauto.
  - rewrite Bool.eqb_true_iff. split; congruence.
  - rewrite Bool.eqb_true_iff. split; congruence.
  - rewrite !andb_true_iff, Bool.eqb_true_iff, Pos.eqb_eq, Z.eqb_eq.
    split; [intros [[-> ->] ->]; reflexivity|].
    intros H; injection H as -> -> ->. auto.
Qed.

Lemma pykey_eqb_eq (x y : pykey) : pykey_eqb x y = true <-> x = y.
Proof.
  destruct x, y; cbn; try (split; [discriminate|congruence]).
  - rewrite Z.eqb_eq. split; congruence.
  - rewrite spec_float_eqb_eq. split; congruence.
  - rewrite String.eqb_eq. split; congruence.
Qed.

(** Two cells are equal exactly when both have a key and the keys agree. *)
Lemma cell_eqb_true (a b : cell) :
  cell_eqb a b = true <->
  exists k, cell_key a = Some k /\ cell_key b = Some k.
Proof.
  unfold cell_eqb.
  destruct (cell_key a) as [x|], (cell_key b) as [y|]; split;
    try discriminate; try (intros (k & H1 & H2); discriminate).
  - intros H. apply pykey_eqb_eq in H. subst. eauto.
  - intros (k & H1 & H2). apply pykey_eqb_eq. congruence.
Qed.

Lemma cell_key_isna (c : cell) : cell_key c = None <-> isna c = true.
Proof.
  destruct c as [|z|f|s]; cbn; try (split; [discriminate|congruence]);
    try tauto.
  destruct (PrimFloat.is_nan f); [tauto|].
  destruct (float_integral f); split; discriminate.
Qed.

Lemma cell_eqb_sym (a b : cell) : cell_eqb a b = cell_eqb b a.
Proof.
  destruct (cell_eqb a b) eqn:E, (cell_eqb b a) eqn:E'; try reflexivity.
  - apply cell_eqb_true in E. destruct E as (k & H1 & H2).
    assert (cell_eqb b a = true) by (apply cell_eqb_true; eauto).
    congruence.
  - apply cell_eqb_true in E'. destruct E' as (k & H1 & H2).
    assert (cell_eqb a b = true) by (apply cell_eqb_true; eauto).
    congruence.
Qed.

Lemma cell_eqb_trans (a b c : cell) :
  cell_eqb a b = true -> cell_eqb b c = true -> cell_eqb a c = true.
Proof.
  rewrite !cell_eqb_true.
  intros (k & H1 & H2) (k' & H3 & H4).
  exists k. split; congruence.
Qed.

Lemma cell_eqb_refl (a : cell) : isna a = false -> cell_eqb a a = true.
Proof.
  intros H. apply cell_eqb_true.
  destruct (cell_key a) as [k|] eqn:E; [eauto|].
  apply cell_key_isna in E. congruence.
Qed.

Lemma cell_eqb_notna (a b : cell) :
  cell_eqb a b = true -> isna a = false /\ isna b = false.
Proof.
  rewrite cell_eqb_true. intros (k & H1 & H2).
  split.
  - destruct (isna a) eqn:E; [|reflexivity].
    apply cell_key_isna in E. congruence.
  - destruct (isna b) eqn:E; [|reflexivity].
    apply cell_key_isna in E. congruence.
Qed.

End PyFacts.

(** ** The stable sort *)
Section SortFacts.
Variable A : Type.
Variable leb : A -> A -> bool.

Lemma insert_perm (x : A) (l : list A) :
  Permutation (insert leb x l) (x :: l).
Proof.
  induction l as [|y l IH]; cbn; [reflexivity|].
  destruct (leb x y); [reflexivity|].
  rewrite IH. apply perm_swap.
Qed.

Lemma sorted_perm (l : list A) : Permutation (sorted leb l) l.
Proof.
  induction l as [|x l IH]; cbn; [reflexivity|].
  rewrite insert_perm. apply perm_skip, IH.
Qed.

Hypothesis leb_total : forall x y, leb x y = true \/ leb y x = true.
Hypothesis leb_trans :
  forall x y z, leb x y = true -> leb y z = true -> leb x z = true.

Lemma insert_sorted (x : A) (l : list A) :
  StronglySorted (fun a b => leb a b = true) l ->
  StronglySorted (fun a b => leb a b = true) (insert leb x l).
Proof.
  induction 1 as [|y l Hs IH Hall]; cbn.
  - constructor; constructor.
  - destruct (leb x y) eqn:E.
    + constructor; [constructor; assumption|].
      constructor; [exact E|].
      eapply Forall_impl; [|exact Hall].
      intros z Hz. eapply leb_trans; eassumption.
    + constructor; [exact IH|].
      eapply Permutation_Forall; [symmetry; apply insert_perm|].
      constructor; [|exact Hall].
      destruct (leb_total x y); congruence.
Qed.

Lemma sorted_sorted (l : list A) :
  StronglySorted (fun a b => leb a b = true) (sorted leb l).
Proof.
  induction l as [|x l IH]; cbn; [constructor|].
  apply insert_sorted, IH.
Qed.
End SortFacts.

(** ** Tables filled by [upsert] *)
Section UpsertFacts.
Variables K A V : Type.
Variable eqb : K -> K -> bool.
Variable agg : list A -> V.
Variable fresh : A -> V.
Variable upd : A -> V -> V.

Hypothesis eqb_sym : forall a b, eqb a b = eqb b a.
Hypothesis eqb_trans :
  forall a b c, eqb a b = true -> eqb b c = true -> eqb a c = true.
Hypothesis agg_one : forall a, agg [a] = fresh a.
Hypothesis agg_snoc : forall l a, agg (l ++ [a]) = upd a (agg l).

Let differ (a b : K) : Prop := eqb a b = false.

Lemma upsert_cases (k : K) (f : V) (u : V -> V) (d : list (K * V)) :
  (exists d1 k' x d2,
      d = d1 ++ (k', x) :: d2 /\ eqb k' k = true /\
      Forall (fun e => eqb (fst e) k = false) d1 /\
      upsert eqb k f u d = d1 ++ (k', u x) :: d2)
  \/ (Forall (fun e => eqb (fst e) k = false) d /\
      upsert eqb k f u d = d ++ [(k, f)]).
Proof.
  induction d as [|[k' x] d IH]; cbn.
  - right. split; [constructor|reflexivity].
  - destruct (eqb k' k) eqn:E.
    + left. exists [], k', x, d. cbn. auto.
    + destruct IH as [(d1 & k'' & y & d2 & -> & Hk & Hd1 & Hu)|[Hall Hu]].
      * left. exists ((k', x) :: d1), k'', y, d2. cbn.
        rewrite Hu. repeat split; auto.
      * right. rewrite Hu. split; [constructor; assumption|reflexivity].
Qed.

Lemma distinct_snoc (l : list K) (x : K) :
  ForallOrdPairs differ l -> Forall (fun y => differ y x) l ->
  ForallOrdPairs differ (l ++ [x]).
Proof.
  induction 1 as [|a l Ha Hl IH]; intros Hx; cbn.
  - constructor; constructor.
  - inversion Hx as [|? ? Hax Hlx]; subst.
    constructor; [|apply IH; assumption].
    apply Forall_app. split; [assumption|]. constructor; [assumption|constructor].
Qed.

Lemma distinct_middle (l1 l2 : list K) (x y : K) :
  ForallOrdPairs differ (l1 ++ x :: l2) -> In y l2 -> differ x y.
Proof.
  induction l1 as [|a l1 IH]; cbn; intros H Hy.
  - inversion H as [|? ? Hx _]; subst.
    rewrite Forall_forall in Hx. apply Hx, Hy.
  - inversion H; subst. apply IH; assumption.
Qed.

Lemma matching_snoc (k : K) (items : list (K * A)) (i : K * A) :
  matching eqb k (items ++ [i])
  = matching eqb k items ++ (if eqb k (fst i) then [snd i] else []).
Proof.
  unfold matching. rewrite filter_app, map_app. cbn.
  destruct (eqb k (fst i)); reflexivity.
Qed.

(** what holds of a table [d] built from the items [items] *)
Let table_ok (items : list (K * A)) (d : list (K * V)) : Prop :=
  ForallOrdPairs differ (map fst d)
  /\ (forall k v, In (k, v) d ->
                  v = agg (matching eqb k items) /\ eqb k k = true)
  /\ (forall i, In i items -> exists e, In e d /\ eqb (fst e) (fst i) = true).

Lemma upsert_keys (k : K) (f : V) (u : V -> V) (d : list (K * V)) (k' : K) :
  In k' (map fst (upsert eqb k f u d)) -> k' = k \/ In k' (map fst d).
Proof.
  induction d as [|[k0 x] d IH]; cbn.
  - intros [<-|[]]. auto.
  - destruct (eqb k0 k); cbn; [auto|].
    intros [<-|H]; [auto|]. destruct (IH H); auto.
Qed.

Lemma fold_upsert_keys (items : list (K * A)) (d : list (K * V)) (k : K) :
  In k (map fst
          (fold_left
             (fun d i => upsert eqb (fst i) (fresh (snd i)) (upd (snd i)) d)
             items d)) ->
  In k (map fst d) \/ In k (map fst items).
Proof.
  revert d. induction items as [|i items IH]; intros d; cbn; [auto|].
  intros H. destruct (IH _ H) as [H'|H']; [|auto].
  apply upsert_keys in H'. destruct H' as [->|H']; auto.
Qed.

Lemma table_step (items : list (K * A)) (d : list (K * V)) (i : K * A) :
  eqb (fst i) (fst i) = true ->
  table_ok items d ->
  table_ok (items ++ [i])
           (upsert eqb (fst i) (fresh (snd i)) (upd (snd i)) d).
Proof.
  destruct i as [ki a]. cbn [fst snd].
  intros Hrefl (Hdist & Hval & Hcov).
  destruct (upsert_cases ki (fresh a) (upd a) d)
    as [(d1 & k' & x & d2 & Hd & Hk & Hd1 & Hu)|[Hall Hu]];
    rewrite Hu; clear Hu.
  - (* the key is already in the table *)
    subst d.
    assert (Hd2 : forall e, In e d2 -> eqb (fst e) ki = false).
    { intros e He. destruct (eqb (fst e) ki) eqn:E; [|reflexivity].
      rewrite map_app in Hdist. cbn [map fst] in Hdist.
      assert (Hne : differ k' (fst e))
        by (eapply distinct_middle; [exact Hdist|apply in_map, He]).
      unfold differ in Hne.
      rewrite eqb_sym in E.
      rewrite (eqb_trans Hk E) in Hne. discriminate. }
    split; [|split].
    + rewrite map_app in *. exact Hdist.
    + intros k v Hin. rewrite matching_snoc. cbn [fst snd].
      apply in_app_or in Hin. destruct Hin as [Hin|[Heq|Hin]].
      * rewrite Forall_forall in Hd1. specialize (Hd1 _ Hin).
        cbn in Hd1. rewrite Hd1, app_nil_r.
        apply Hval, in_or_app. auto.
      * injection Heq as <- <-. rewrite Hk.
        destruct (Hval k' x) as [Hx Hkk];
          [apply in_or_app; right; left; reflexivity|].
        split; [|exact Hkk]. rewrite agg_snoc, <- Hx. reflexivity.
      * specialize (Hd2 _ Hin). cbn in Hd2. rewrite Hd2, app_nil_r.
        apply Hval, in_or_app. right. right. exact Hin.
    + intros i Hi. apply in_app_or in Hi. destruct Hi as [Hi|[<-|[]]].
      * destruct (Hcov _ Hi) as (e & He & Hei).
        apply in_app_or in He. destruct He as [He|[<-|He]].
        -- exists e. split; [apply in_or_app; auto|exact Hei].
        -- exists (k', upd a x).
           split; [apply in_or_app; right; left; reflexivity|exact Hei].
        -- exists e. split; [apply in_or_app; right; right; exact He|].
           exact Hei.
      * exists (k', upd a x).
        split; [apply in_or_app; right; left; reflexivity|exact Hk].
  - (* a new key *)
    rewrite Forall_forall in Hall.
    assert (Hnone : matching eqb ki items = []).
    { unfold matching.
      assert (Hno : forall i, In i items -> eqb ki (fst i) = false).
      { intros i Hi. destruct (eqb ki (fst i)) eqn:E; [|reflexivity].
        destruct (Hcov _ Hi) as (e & He & Hei).
        rewrite eqb_sym in E.
        rewrite <- (Hall _ He). symmetry.
        exact (eqb_trans Hei E). }
      clear - Hno. induction items as [|i items IH]; [reflexivity|].
      cbn. rewrite (Hno i (or_introl eq_refl)).
      apply IH. intros j Hj. apply Hno. right. exact Hj. }
    split; [|split].
    + rewrite map_app. cbn [map fst].
      apply distinct_snoc; [exact Hdist|].
      rewrite Forall_forall. intros y Hy.
      apply in_map_iff in Hy. destruct Hy as (e & <- & He).
      apply Hall, He.
    + intros k v Hin. rewrite matching_snoc. cbn [fst snd].
      apply in_app_or in Hin. destruct Hin as [Hin|[Heq|[]]].
      * pose proof (Hall _ Hin) as Hk. cbn [fst] in Hk.
        rewrite Hk, app_nil_r. apply Hval, Hin.
      * injection Heq as <- <-.
        rewrite Hrefl, Hnone. cbn. split; [symmetry; apply agg_one|reflexivity].
    + intros i Hi. apply in_app_or in Hi. destruct Hi as [Hi|[<-|[]]].
      * destruct (Hcov _ Hi) as (e & He & Hei).
        exists e. split; [apply in_or_app; auto|exact Hei].
      * exists (ki, fresh a).
        split; [apply in_or_app; right; left; reflexivity|exact Hrefl].
Qed.

Lemma table_fold (items done : list (K * A)) (d : list (K * V)) :
  Forall (fun i => eqb (fst i) (fst i) = true) items ->
  table_ok done d ->
  table_ok (done ++ items)
           (fold_left
              (fun d i => upsert eqb (fst i) (fresh (snd i)) (upd (snd i)) d)
              items d).
Proof.
  revert done d.
  induction items as [|i items IH]; intros done d Hall Hok; cbn.
  - rewrite app_nil_r. exact Hok.
  - inversion Hall as [|? ? Hi Hall']; subst.
    change (i :: items) with ([i] ++ items). rewrite app_assoc.
    apply IH; [exact Hall'|]. apply table_step; assumption.
Qed.

(** Every value of the table is the aggregate of the payloads filed
    under its key, the keys of the table are pairwise different, and
    every item has its key in the table. *)
Theorem upsert_table (items : list (K * A)) :
  Forall (fun i => eqb (fst i) (fst i) = true) items ->
  let d := fold_left
             (fun d i => upsert eqb (fst i) (fresh (snd i)) (upd (snd i)) d)
             items [] in
  ForallOrdPairs (fun a b => eqb a b = false) (map fst d)
  /\ (forall k v, In (k, v) d ->
                  v = agg (matching eqb k items) /\ eqb k k = true)
  /\ (forall i, In i items -> exists e, In e d /\ eqb (fst e) (fst i) = true).
Proof.
  intros Hall. apply (@table_fold items [] []); [exact Hall|].
  split; [constructor|]. split; [intros k v []|intros i []].
Qed.
End UpsertFacts.

(* ================================================================== *)
(** * Facts on the pandas layer *)
(* ================================================================== *)

Section PandasFacts.

Lemma key4_eqb_sym (k k' : key4) : key4_eqb k k' = key4_eqb k' k.
Proof.
  destruct k as [[[a b] c] d], k' as [[[a' b'] c'] d']. cbn.
  rewrite (cell_eqb_sym a), (cell_eqb_sym b), (cell_eqb_sym c),
    (cell_eqb_sym d). reflexivity.
Qed.

Lemma key4_eqb_trans (k1 k2 k3 : key4) :
  key4_eqb k1 k2 = true -> key4_eqb k2 k3 = true -> key4_eqb k1 k3 = true.
Proof.
  destruct k1 as [[[a1 b1] c1] d1], k2 as [[[a2 b2] c2] d2],
    k3 as [[[a3 b3] c3] d3]. cbn.
  rewrite !andb_true_iff.
  intros [[[Ha Hb] Hc] Hd] [[[Ha' Hb'] Hc'] Hd'].
  repeat split; eapply cell_eqb_trans; eassumption.
Qed.

Lemma key4_eqb_refl (k : key4) : key4_isna k = false -> key4_eqb k k = true.
Proof.
  destruct k as [[[a b] c] d]. cbn.
  rewrite !orb_false_iff. intros [[[Ha Hb] Hc] Hd].
  rewrite !cell_eqb_refl by assumption. reflexivity.
Qed.

Lemma key4_eqb_notna (k k' : key4) :
  key4_eqb k k' = true -> key4_isna k = false /\ key4_isna k' = false.
Proof.
  destruct k as [[[a b] c] d], k' as [[[a' b'] c'] d']. cbn.
  rewrite !andb_true_iff. intros [[[Ha Hb] Hc] Hd].
  apply cell_eqb_notna in Ha, Hb, Hc, Hd.
  destruct Ha as [-> ->], Hb as [-> ->], Hc as [-> ->], Hd as [-> ->].
  split; reflexivity.
Qed.

(** ** [groupby] *)

Lemma group_rows_fold (cols : list string)
  (ks : string * string * string * string) (rs : list Row)
  (gs : list (key4 * list Row)) :
  fold_left
    (fun gs r =>
       let k := row_key cols ks r in
       if key4_isna k then gs else add_to_group k r gs) rs gs
  = fold_left
      (fun d i => upsert key4_eqb (fst i) [snd i] (fun l => l ++ [snd i]) d)
      (map (fun r => (row_key cols ks r, r))
           (filter (fun r => negb (key4_isna (row_key cols ks r))) rs))
      gs.
Proof.
  revert gs. induction rs as [|r rs IH]; intros gs; [reflexivity|].
  cbn [fold_left filter]. cbv zeta.
  destruct (key4_isna (row_key cols ks r)); cbn [negb map fold_left fst snd];
    apply IH.
Qed.

Lemma filter_filter_key (cols : list string)
  (ks : string * string * string * string) (k : key4) (rs : list Row) :
  matching key4_eqb k
    (map (fun r => (row_key cols ks r, r))
         (filter (fun r => negb (key4_isna (row_key cols ks r))) rs))
  = filter (fun r => key4_eqb k (row_key cols ks r)) rs.
Proof.
  unfold matching.
  induction rs as [|r rs IH]; [reflexivity|].
  cbn [filter].
  destruct (key4_isna (row_key cols ks r)) eqn:Ena; cbn [negb map filter fst].
  - destruct (key4_eqb k (row_key cols ks r)) eqn:E; [|exact IH].
    apply key4_eqb_notna in E. destruct E. congruence.
  - destruct (key4_eqb k (row_key cols ks r)); cbn [map snd];
      rewrite IH; reflexivity.
Qed.

(** A group holds exactly the rows of the frame whose key equals the
    group's key, in frame order; no group has a missing key, and two
    groups never have equal keys. *)
Lemma group_rows_spec (cols : list string)
  (ks : string * string * string * string) (rs : list Row) :
  ForallOrdPairs (fun a b => key4_eqb a b = false)
                 (map fst (group_rows cols ks rs))
  /\ forall k g, In (k, g) (group_rows cols ks rs) ->
       g = filter (fun r => key4_eqb k (row_key cols ks r)) rs
       /\ key4_isna k = false.
Proof.
  unfold group_rows. rewrite group_rows_fold.
  pose proof (@upsert_table key4 Row (list Row) key4_eqb
                (fun l => l) (fun r => [r]) (fun r l => l ++ [r])
                key4_eqb_sym key4_eqb_trans
                (fun a => eq_refl) (fun l a => eq_refl)
                (map (fun r => (row_key cols ks r, r))
                     (filter (fun r => negb (key4_isna (row_key cols ks r)))
                             rs))) as H.
  cbv zeta in H.
  destruct H as (Hdist & Hval & _).
  - rewrite Forall_forall. intros i Hi.
    apply in_map_iff in Hi. destruct Hi as (r & <- & Hr).
    apply filter_In in Hr. destruct Hr as [_ Hr]. cbn [fst].
    apply key4_eqb_refl. destruct (key4_isna (row_key cols ks r));
      [discriminate|reflexivity].
  - split; [exact Hdist|].
    intros k g Hin. destruct (Hval _ _ Hin) as [Hg Hk].
    rewrite filter_filter_key in Hg. split; [exact Hg|].
    apply key4_eqb_notna in Hk. tauto.
Qed.

(** The key of a group is the key of one of the rows of the frame. *)
Lemma group_rows_key (cols : list string)
  (ks : string * string * string * string) (rs : list Row)
  (k : key4) (g : list Row) :
  In (k, g) (group_rows cols ks rs) ->
  exists r, In r rs /\ k = row_key cols ks r.
Proof.
  unfold group_rows. rewrite group_rows_fold. intros Hin.
  apply (in_map fst) in Hin. cbn [fst] in Hin.
  apply (@fold_upsert_keys key4 Row (list Row) key4_eqb
           (fun r => [r]) (fun r l => l ++ [r])) in Hin.
  destruct Hin as [[]|Hin].
  rewrite map_map in Hin. cbn [fst] in Hin.
  apply in_map_iff in Hin. destruct Hin as (r & <- & Hr).
  apply filter_In in Hr. exists r. tauto.
Qed.

(** ** [sort_values] *)
Lemma sort_values_perm (strict : bool) (by_ : list string)
  (df df' : DataFrame) :
  sort_values strict by_ df = inr df' ->
  columns df' = columns df /\ Permutation (rows df') (rows df).
Proof.
  unfold sort_values.
  destruct (strict && existsb (mixed_column df) by_); [discriminate|].
  intros H. injection H as <-. cbn. split; [reflexivity|apply sorted_perm].
Qed.

(** ** Column assignment *)
Lemma col_index_inj (cols : list string) (c c' : string) (i : nat) :
  col_index c cols = Some i -> col_index c' cols = Some i -> c = c'.
Proof.
  revert i. induction cols as [|x cols IH]; intros i; cbn; [discriminate|].
  destruct (String.eqb_spec x c) as [Hc|Hc], (String.eqb_spec x c') as [Hc'|Hc'].
  - congruence.
  - intros H. injection H as <-.
    destruct (col_index c' cols); discriminate.
  - intros H H'. injection H' as <-.
    destruct (col_index c cols); discriminate.
  - destruct (col_index c cols) as [j|] eqn:E; [|discriminate].
    destruct (col_index c' cols) as [j'|] eqn:E'; [|discriminate].
    cbn. intros H H'. injection H as <-. injection H' as H'. subst j'.
    eapply IH; eauto.
Qed.

Lemma nth_set_cell_other (i j : nat) (v : cell) (r : Row) :
  i <> j -> nth j (set_cell i v r) CNull = nth j r CNull.
Proof.
  revert j r. induction i as [|i IH]; intros j r Hij.
  - destruct j as [|j]; [congruence|].
    destruct r as [|c r]; cbn; [destruct j|]; reflexivity.
  - destruct j as [|j], r as [|c r]; cbn; try reflexivity.
    + rewrite IH by congruence. destruct j; reflexivity.
    + apply IH. congruence.
Qed.

Lemma loc_assign_other (c c' : string) (f : cell -> cell) (cols : list string)
  (i : nat) (r : Row) :
  c <> c' -> col_index c cols = Some i ->
  loc cols c' (set_cell i (f (nth i r CNull)) r) = loc cols c' r.
Proof.
  intros Hne Hi. unfold loc.
  destruct (col_index c' cols) as [j|] eqn:Hj; [|reflexivity].
  apply nth_set_cell_other. intros ->.
  apply Hne. eapply col_index_inj; eassumption.
Qed.

Lemma col_index_has_column (c : string) (cols : list string) :
  has_column cols c = true -> exists i, col_index c cols = Some i.
Proof.
  unfold has_column. induction cols as [|x cols IH]; cbn; [discriminate|].
  rewrite (String.eqb_sym c x).
  destruct (String.eqb x c); cbn; [eauto|].
  intros H. destruct (IH H) as [i ->]. cbn. eauto.
Qed.

End PandasFacts.

(* ================================================================== *)
(** * Facts on [calculate_monthly_distance] *)
(* ================================================================== *)

Section MonthlyFacts.
Context {X : Externals}.

Lemma first_missing_none (cols req : list string) :
  first_missing cols req = None ->
  forall c, In c req -> has_column cols c = true.
Proof.
  induction req as [|x req IH]; cbn; [intros _ c []|].
  destruct (has_column cols x) eqn:E; [|discriminate].
  intros H c [<-|Hc]; [exact E|]. apply IH; assumption.
Qed.

Lemma first_missing_some (cols req : list string) (c : string) :
  first_missing cols req = Some c ->
  exists pre post,
    req = pre ++ c :: post
    /\ Forall (fun x => has_column cols x = true) pre
    /\ has_column cols c = false.
Proof.
  induction req as [|x req IH]; cbn; [discriminate|].
  destruct (has_column cols x) eqn:E.
  - intros H. destruct (IH H) as (pre & post & -> & Hpre & Hc).
    exists (x :: pre), post. repeat split; [constructor|]; assumption.
  - intros H. injection H as <-. exists [], req.
    repeat split; [constructor|exact E].
Qed.

Lemma first_missing_exists (cols req : list string) (c : string) :
  In c req -> has_column cols c = false ->
  exists c', first_missing cols req = Some c'.
Proof.
  induction req as [|x req IH]; cbn; [intros []|].
  intros [->|Hc] Hmiss.
  - rewrite Hmiss. eauto.
  - destruct (has_column cols x); eauto.
Qed.

(** ** One group *)
Lemma process_group_ok (results : results_t) (detailed : list DayResult)
  (g : key4 * DataFrame) (d : DayResult) :
  day_result g = inr d ->
  process_group (results, detailed) g
  = ([DayDistance], Returned (add_day results d, detailed ++ [d])).
Proof.
  destruct g as [[[[so_name so_erp] week] day] group].
  unfold day_result, process_group.
  destruct (astype_float (column "Latitude" group)) as [e|lat];
    [discriminate|].
  destruct (astype_float (column "Longitude" group)) as [e|lon];
    [discriminate|].
  cbv zeta. cbn [try_call bind call app].
  destruct (negb (isna week)).
  - destruct (py_int week) as [e|z]; [discriminate|].
    intros H. injection H as <-. reflexivity.
  - intros H. injection H as <-. reflexivity.
Qed.

Lemma process_group_raised (st : results_t * list DayResult)
  (g : key4 * DataFrame) (e : exn) :
  day_result g = inl e ->
  exists l, process_group st g = (l, Raised e).
Proof.
  destruct st as [results detailed].
  destruct g as [[[[so_name so_erp] week] day] group].
  unfold day_result, process_group.
  destruct (astype_float (column "Latitude" group)) as [e1|lat].
  { intros H. injection H as <-. cbn. eauto. }
  destruct (astype_float (column "Longitude" group)) as [e2|lon].
  { intros H. injection H as <-. cbn. eauto. }
  cbv zeta. cbn [try_call bind call app].
  destruct (negb (isna week)); [|discriminate].
  destruct (py_int week) as [e3|z]; [|discriminate].
  intros H. injection H as <-. cbn. eauto.
Qed.

(** ** The loop over the groups *)
Lemma for_each_group_ok (gs : list (key4 * DataFrame)) (ds : list DayResult)
  (results : results_t) (detailed : list DayResult) :
  day_results gs = inr ds ->
  for_each_group gs (results, detailed)
  = (repeat DayDistance (List.length gs),
     Returned (fold_left add_day ds results, detailed ++ ds)).
Proof.
  revert ds results detailed.
  induction gs as [|g gs IH]; intros ds results detailed;
    cbn [for_each_group day_results List.length repeat].
  - intros H. injection H as <-. rewrite app_nil_r. reflexivity.
  - destruct (day_result g) as [e|d] eqn:Hd; [discriminate|].
    destruct (day_results gs) as [e|ds'] eqn:Hds; [discriminate|].
    intros H. injection H as <-.
    rewrite (process_group_ok _ _ _ Hd). cbn [bind].
    rewrite (IH ds' _ _ eq_refl). cbn [app fold_left].
    rewrite <- app_assoc. reflexivity.
Qed.

Lemma for_each_group_raised (gs : list (key4 * DataFrame)) (e : exn)
  (st : results_t * list DayResult) :
  day_results gs = inl e ->
  exists l, for_each_group gs st = (l, Raised e).
Proof.
  revert st. induction gs as [|g gs IH]; intros st;
    cbn [for_each_group day_results]; [discriminate|].
  destruct (day_result g) as [e'|d] eqn:Hd.
  - intros H. injection H as <-.
    destruct (process_group_raised st _ Hd) as [l ->]. cbn [bind]. eauto.
  - destruct (day_results gs) as [e'|ds'] eqn:Hds; [|discriminate].
    intros H. injection H as <-. destruct st as [results detailed].
    rewrite (process_group_ok _ _ _ Hd). cbn [bind].
    destruct (IH (add_day results d, detailed ++ [d]) eq_refl) as [l ->].
    eauto.
Qed.

Lemma day_results_Forall2 (gs : list (key4 * DataFrame))
  (ds : list DayResult) :
  day_results gs = inr ds ->
  Forall2 (fun g d => day_result g = inr d) gs ds.
Proof.
  revert ds. induction gs as [|g gs IH]; intros ds; cbn.
  - intros H. injection H as <-. constructor.
  - destruct (day_result g) as [e|d] eqn:Hd; [discriminate|].
    destruct (day_results gs) as [e|ds']; [discriminate|].
    intros H. injection H as <-. constructor; [exact Hd|]. apply IH.
    reflexivity.
Qed.

(** ** The whole function, once the sheet is read and has its columns *)
Lemma monthly_unfold (file_path : string) (df : DataFrame) :
  read_excel file_path = inr df ->
  first_missing (columns df) required_cols = None ->
  calculate_monthly_distance file_path
  = match sort_values sort_rejects_mixed sort_keys (coerced df) with
    | inl e => ([ReadExcel; DropNa; ToNumeric; SortValues], Raised e)
    | inr sdf =>
        match for_each_group (groupby group_keys sdf) ([], []) with
        | (l, Returned (results, detailed)) =>
            ([ReadExcel; DropNa; ToNumeric; SortValues; GroupBy] ++ l,
             Returned (Success (sorted summary_leb (total_summary_of results))
                               detailed))
        | (l, Raised e) =>
            ([ReadExcel; DropNa; ToNumeric; SortValues; GroupBy] ++ l,
             Raised e)
        end
    end.
Proof.
  intros Hread Hcols. unfold calculate_monthly_distance.
  rewrite Hread. cbn [call bind]. rewrite Hcols.
  assert (Hvo : has_column (columns df) "VISIT_ORDER" = true).
  { apply (first_missing_none _ _ Hcols). cbn. tauto. }
  cbn [dropna columns]. rewrite Hvo.
  fold (coerced df). fold sort_keys. fold group_keys.
  cbn [bind call].
  destruct (sort_values sort_rejects_mixed sort_keys (coerced df))
    as [e|sdf]; cbn [try_call bind call app]; [reflexivity|].
  destruct (for_each_group (groupby group_keys sdf) ([], []))
    as [l [[results detailed]|e]]; cbn [ret bind app];
    rewrite ?app_nil_r; reflexivity.
Qed.

(** How a run ends, case by case. *)
Lemma monthly_sorted_ok (file_path : string) (df sdf : DataFrame)
  (ds : list DayResult) :
  read_excel file_path = inr df ->
  first_missing (columns df) required_cols = None ->
  sort_values sort_rejects_mixed sort_keys (coerced df) = inr sdf ->
  day_results (groupby group_keys sdf) = inr ds ->
  calculate_monthly_distance file_path
  = ([ReadExcel; DropNa; ToNumeric; SortValues; GroupBy]
       ++ repeat DayDistance (List.length (groupby group_keys sdf)),
     Returned (Success (sorted summary_leb
                          (total_summary_of (fold_left add_day ds [])))
                       ds)).
Proof.
  intros Hread Hcols Hsort Hds.
  rewrite (monthly_unfold _ Hread Hcols), Hsort.
  pose proof (@for_each_group_ok _ _ [] [] Hds) as Hloop.
  unfold results_t in *. rewrite Hloop. reflexivity.
Qed.

Lemma monthly_success_inv (file_path : string) (log : list op)
  (summary : list SummaryEntry) (breakdown : list DayResult) :
  calculate_monthly_distance file_path
  = (log, Returned (Success summary breakdown)) ->
  exists df sdf,
    read_excel file_path = inr df
    /\ first_missing (columns df) required_cols = None
    /\ sort_values sort_rejects_mixed sort_keys (coerced df) = inr sdf
    /\ day_results (groupby group_keys sdf) = inr breakdown
    /\ summary = sorted summary_leb
                   (total_summary_of (fold_left add_day breakdown [])).
Proof.
  intros Hrun.
  destruct (read_excel file_path) as [msg|df] eqn:Hread.
  { unfold calculate_monthly_distance in Hrun. rewrite Hread in Hrun.
    discriminate. }
  destruct (first_missing (columns df) required_cols) as [c|] eqn:Hcols.
  { unfold calculate_monthly_distance in Hrun. rewrite Hread in Hrun.
    cbn [call bind] in Hrun. rewrite Hcols in Hrun. discriminate. }
  rewrite (monthly_unfold _ Hread Hcols) in Hrun.
  destruct (sort_values sort_rejects_mixed sort_keys (coerced df))
    as [e|sdf] eqn:Hsort; [discriminate|].
  exists df, sdf.
  destruct (day_results (groupby group_keys sdf)) as [e|ds] eqn:Hds.
  - destruct (@for_each_group_raised _ _ ([], []) Hds) as [l Hl].
    unfold results_t in *. rewrite Hl in Hrun. discriminate.
  - pose proof (@for_each_group_ok _ _ [] [] Hds) as Hloop.
    unfold results_t in *. rewrite Hloop in Hrun.
    cbn [app] in Hrun. injection Hrun as _ <- <-. auto.
Qed.

End MonthlyFacts.

(* ================================================================== *)
(** * The order of the summary *)
(* ================================================================== *)

Section OrderFacts.

Lemma compare_refl (s : string) : String.compare s s = Eq.
Proof. apply String_as_OT.cmp_eq. reflexivity. Qed.

Lemma compare_lt_trans (s t u : string) :
  String.compare s t = Lt -> String.compare t u = Lt ->
  String.compare s u = Lt.
Proof.
  intros H1 H2. apply String_as_OT.cmp_lt.
  eapply String_as_OT.lt_trans; apply String_as_OT.cmp_lt; eassumption.
Qed.

Lemma compare_gt_lt (s t : string) :
  String.compare s t = Gt <-> String.compare t s = Lt.
Proof.
  rewrite (String.compare_antisym t s).
  destruct (String.compare s t); cbn; split; congruence.
Qed.

Lemma string_leb_trans (s t u : string) :
  String.leb s t = true -> String.leb t u = true -> String.leb s u = true.
Proof.
  unfold String.leb.
  destruct (String.compare s t) eqn:E1; [| |discriminate];
    destruct (String.compare t u) eqn:E2; try discriminate; intros _ _.
  - apply String.compare_eq_iff in E1, E2. subst.
    rewrite compare_refl. reflexivity.
  - apply String.compare_eq_iff in E1. subst. rewrite E2. reflexivity.
  - apply String.compare_eq_iff in E2. subst. rewrite E1. reflexivity.
  - rewrite (compare_lt_trans _ _ _ E1 E2). reflexivity.
Qed.

Lemma tuple_leb_total (a b : string * string) :
  tuple_leb a b = true \/ tuple_leb b a = true.
Proof.
  unfold tuple_leb. rewrite (String.compare_antisym (fst b) (fst a)).
  destruct (String.compare (fst a) (fst b)); cbn; auto.
  apply String.leb_total.
Qed.

Lemma tuple_leb_trans (a b c : string * string) :
  tuple_leb a b = true -> tuple_leb b c = true -> tuple_leb a c = true.
Proof.
  unfold tuple_leb.
  destruct (String.compare (fst a) (fst b)) eqn:E1; [| |discriminate];
    destruct (String.compare (fst b) (fst c)) eqn:E2; try discriminate.
  - apply String.compare_eq_iff in E1, E2. rewrite E1, E2, compare_refl.
    apply string_leb_trans.
  - apply String.compare_eq_iff in E1. rewrite E1, E2. reflexivity.
  - apply String.compare_eq_iff in E2. rewrite <- E2, E1. reflexivity.
  - rewrite (compare_lt_trans _ _ _ E1 E2). reflexivity.
Qed.

Context {X : Externals}.

Lemma summary_leb_le (x y : SummaryEntry) :
  summary_leb x y = true <-> summary_le x y.
Proof.
  unfold summary_leb, summary_le, tuple_leb, summary_key, str_lt, str_le,
    String.leb. cbn [fst snd].
  destruct (String.compare (lower unicode_lower (py_str (SO_NAME x)))
                           (lower unicode_lower (py_str (SO_NAME y))))
    eqn:E.
  - apply String.compare_eq_iff in E. split.
    + intros H. right. split; [exact E|].
      destruct (String.compare _ _); congruence.
    + intros [H|[_ H]]; [discriminate|].
      destruct (String.compare _ _); congruence.
  - split; auto.
  - split; [discriminate|].
    intros [H|[H _]]; [discriminate|].
    rewrite H, compare_refl in E. discriminate.
Qed.

End OrderFacts.

(* ================================================================== *)
(** * From the groups to the result *)
(* ================================================================== *)

Section ResultFacts.
Context {X : Externals}.

Lemma key2_eqb_sym (k k' : key2) : key2_eqb k k' = key2_eqb k' k.
Proof.
  unfold key2_eqb.
  rewrite (cell_eqb_sym (fst k)), (cell_eqb_sym (snd k)). reflexivity.
Qed.

Lemma key2_eqb_trans (k1 k2 k3 : key2) :
  key2_eqb k1 k2 = true -> key2_eqb k2 k3 = true -> key2_eqb k1 k3 = true.
Proof.
  unfold key2_eqb. rewrite !andb_true_iff.
  intros [Ha Hb] [Ha' Hb']. split; eapply cell_eqb_trans; eassumption.
Qed.

Lemma astype_float_length (cells : list cell) (fs : list float) :
  astype_float cells = inr fs -> List.length fs = List.length cells.
Proof.
  revert fs. induction cells as [|c cells IH]; intros fs; cbn.
  - intros H. injection H as <-. reflexivity.
  - destruct (py_float c) as [e|f]; [discriminate|].
    destruct (astype_float cells) as [e|fs']; [discriminate|].
    intros H. injection H as <-. cbn. f_equal. apply IH. reflexivity.
Qed.

(** what a Day Result records of its group *)
Lemma day_result_fields (k : key4) (group : DataFrame) (d : DayResult) :
  day_result (k, group) = inr d ->
  let '(so_name, so_erp, week, day) := k in
  day_SO_NAME d = so_name
  /\ day_SO_ERP_ID d = so_erp
  /\ (isna week = false -> exists z, py_int week = inr z /\ WEEK d = CInt z)
  /\ DAY d = py_str day
  /\ OUTLETS_VISITED d = Z.of_nat (List.length (rows group)).
Proof.
  destruct k as [[[so_name so_erp] week] day]. unfold day_result.
  destruct (astype_float (column "Latitude" group)) as [e|lat] eqn:Hlat;
    [discriminate|].
  destruct (astype_float (column "Longitude" group)) as [e|lon] eqn:Hlon;
    [discriminate|].
  cbv zeta.
  apply astype_float_length in Hlat, Hlon.
  unfold column in Hlat, Hlon. rewrite length_map in Hlat, Hlon.
  assert (Hlen : List.length (combine lat lon) = List.length (rows group)).
  { rewrite length_combine. lia. }
  destruct (isna week) eqn:Hna; cbn [negb].
  - intros H. injection H as <-. cbn. rewrite Hlen.
    repeat split; try reflexivity. discriminate.
  - destruct (py_int week) as [e|z]; [discriminate|].
    intros H. injection H as <-. cbn. rewrite Hlen.
    repeat split; try reflexivity. intros _. eauto.
Qed.

Lemma groupby_member (ks : string * string * string * string)
  (df : DataFrame) (g : key4 * DataFrame) :
  In g (groupby ks df) ->
  exists k rs,
    g = (k, mkFrame (columns df) rs)
    /\ In (k, rs) (group_rows (columns df) ks (rows df)).
Proof.
  unfold groupby. intros H. apply in_map_iff in H.
  destruct H as ([k rs] & <- & Hin). exists k, rs. auto.
Qed.

Lemma filter_map_length (A B : Type) (f : A -> B) (p : B -> bool)
  (l : list A) :
  List.length (filter p (map f l))
  = List.length (filter (fun a => p (f a)) l).
Proof.
  induction l as [|a l IH]; cbn; [reflexivity|].
  destruct (p (f a)); cbn; rewrite IH; reflexivity.
Qed.

Lemma filter_perm_length (A : Type) (p : A -> bool) (l l' : list A) :
  Permutation l l' ->
  List.length (filter p l) = List.length (filter p l').
Proof.
  induction 1 as [|a l l' _ IH|a b l|l1 l2 l3 _ IH1 _ IH2]; cbn.
  - reflexivity.
  - destruct (p a); cbn; rewrite IH; reflexivity.
  - destruct (p a), (p b); reflexivity.
  - congruence.
Qed.

Lemma filter_ext_length (A : Type) (p q : A -> bool) (l : list A) :
  (forall a, In a l -> p a = q a) ->
  List.length (filter p l) = List.length (filter q l).
Proof.
  induction l as [|a l IH]; intros H; cbn; [reflexivity|].
  rewrite (H a (or_introl eq_refl)).
  destruct (q a); cbn; rewrite IH; auto; intros b Hb; apply H; right; exact Hb.
Qed.

(** Coercing the visit order leaves the header and the other columns as
    they were. *)
Lemma coerced_columns (df : DataFrame) : columns (coerced df) = columns df.
Proof.
  unfold coerced, assign.
  destruct (col_index "VISIT_ORDER" (columns (dropna _ df))); reflexivity.
Qed.

Lemma coerced_rows (df : DataFrame) :
  exists f : Row -> Row,
    rows (coerced df)
    = map f (rows (dropna ["Latitude"; "Longitude"]%string df))
    /\ forall c r, c <> "VISIT_ORDER"%string ->
                   loc (columns df) c (f r) = loc (columns df) c r.
Proof.
  unfold coerced, assign. cbn [dropna columns rows].
  destruct (col_index "VISIT_ORDER" (columns df)) as [i|] eqn:Hi.
  - eexists. split; [reflexivity|].
    intros c r Hc. cbn beta. apply loc_assign_other with (c := "VISIT_ORDER"%string);
      [congruence|exact Hi].
  - exists (fun r => r). split; [symmetry; apply map_id|reflexivity].
Qed.

Lemma day_key_coerced (df : DataFrame) (f : Row -> Row) (r : Row) :
  (forall c r, c <> "VISIT_ORDER"%string ->
               loc (columns df) c (f r) = loc (columns df) c r) ->
  row_key (columns df) group_keys (f r) = day_key df r.
Proof.
  intros Hf. unfold day_key, row_key, group_keys.
  rewrite !Hf by discriminate. reflexivity.
Qed.

End ResultFacts.

(* ================================================================== *)
(** * Properties of [calculate_monthly_distance] *)
(* ================================================================== *)

Section MonthlyProperties.
Context {X : Externals}.

Lemma Forall2_In_r (A B : Type) (R : A -> B -> Prop) (l : list A)
  (l' : list B) (y : B) :
  Forall2 R l l' -> In y l' -> exists x, In x l /\ R x y.
Proof.
  induction 1 as [|a b l l' Hab _ IH]; cbn; [intros []|].
  intros [<-|Hy]; [eauto|].
  destruct (IH Hy) as (x & Hx & Hr). eauto.
Qed.

(** Every Day Result of a successful run comes from a group of the sorted
    frame: a key without a missing part, and the rows of that key. *)
Lemma breakdown_group (sdf : DataFrame) (ds : list DayResult)
  (d : DayResult) :
  day_results (groupby group_keys sdf) = inr ds -> In d ds ->
  exists k,
    key4_isna k = false
    /\ day_result
         (k, mkFrame (columns sdf)
                     (filter (fun r => key4_eqb k
                                         (row_key (columns sdf) group_keys r))
                             (rows sdf)))
       = inr d.
Proof.
  intros Hds Hd.
  destruct (@Forall2_In_r _ _ _ _ _ _ (day_results_Forall2 _ Hds) Hd)
    as (g & Hg & Hgd).
  destruct (groupby_member _ _ _ Hg) as (k & rs & Hgeq & Hin). subst g.
  destruct (group_rows_spec (columns sdf) group_keys (rows sdf)) as [_ Hspec].
  destruct (Hspec _ _ Hin) as [Hrs Hk].
  exists k. rewrite <- Hrs. auto.
Qed.

Lemma fold_add_day (ds : list DayResult) (results : results_t) :
  fold_left add_day ds results
  = fold_left
      (fun d i => upsert key2_eqb (fst i) (0 + snd i)%float
                         (fun x => (x + snd i)%float) d)
      (map (fun d => (day_salesperson d, DISTANCE_KM d)) ds) results.
Proof.
  revert results. induction ds as [|d ds IH]; intros results;
    [reflexivity|].
  cbn [fold_left map]. rewrite IH. reflexivity.
Qed.

Lemma matching_days (k : key2) (ds : list DayResult) :
  matching key2_eqb k (map (fun d => (day_salesperson d, DISTANCE_KM d)) ds)
  = map DISTANCE_KM (days_of k ds).
Proof.
  unfold matching, days_of.
  induction ds as [|d ds IH]; [reflexivity|].
  cbn [map filter fst].
  destruct (key2_eqb k (day_salesperson d)); cbn [map snd]; rewrite IH;
    reflexivity.
Qed.


(** C3. In a successful run the TOTAL_MONTHLY_DISTANCE_KM of a summary
    entry is [round(., 2)] of the sum of the DISTANCE_KM of the Day Results
    of that salesperson, all of them and no others, added in breakdown
    order from [0.0]: the total and the sum of the days differ by that last
    rounding to the hundredth and by nothing else.  Every salesperson of
    the breakdown has such an entry. *)
Theorem monthly_total_is_sum_of_days (file_path : string) (log : list op)
  (summary : list SummaryEntry) (breakdown : list DayResult) :
  calculate_monthly_distance file_path
  = (log, Returned (Success summary breakdown)) ->
  (forall e, In e summary ->
     TOTAL_MONTHLY_DISTANCE_KM e
     = round2 (sum_km (map DISTANCE_KM
                           (days_of (salesperson e) breakdown))))
  /\ (forall d, In d breakdown ->
        exists e, In e summary
                  /\ key2_eqb (salesperson e) (day_salesperson d) = true).
Proof.
  intros Hrun.
  destruct (@monthly_success_inv _ _ _ _ _ Hrun)
    as (df & sdf & _ & _ & _ & Hds & ->).
  pose proof (@upsert_table key2 float float key2_eqb sum_km
                (fun a => (0 + a)%float) (fun a x => (x + a)%float)
                key2_eqb_sym key2_eqb_trans
                (fun a => eq_refl)
                (fun l a => fold_left_app PrimFloat.add l [a] 0%float)
                (map (fun d => (day_salesperson d, DISTANCE_KM d)) breakdown))
    as Htab.
  cbv zeta in Htab. rewrite <- fold_add_day in Htab.
  destruct Htab as (_ & Hval & Hcov).
  { rewrite Forall_forall. intros i Hi. apply in_map_iff in Hi.
    destruct Hi as (d & <- & Hd). cbn [fst].
    destruct (@breakdown_group _ _ _ Hds Hd) as (k' & Hk' & Hres).
    pose proof (@day_result_fields _ _ _ _ Hres) as Hf.
    destruct k' as [[[so_name so_erp] week] day].
    destruct Hf as (Hn & Hid & _).
    cbn in Hk'. rewrite !orb_false_iff in Hk'.
    unfold key2_eqb, day_salesperson. cbn [fst snd]. rewrite Hn, Hid.
    rewrite !cell_eqb_refl by tauto. reflexivity. }
  split.
  - intros e He.
    apply (Permutation_in _ (sorted_perm summary_leb _)) in He.
    unfold total_summary_of in He. apply in_map_iff in He.
    destruct He as ([k v] & <- & Hkv). cbn [fst snd].
    destruct (Hval _ _ Hkv) as [-> _].
    rewrite matching_days. unfold salesperson. cbn [SO_NAME SO_ERP_ID].
    destruct k; reflexivity.
  - intros d Hd.
    destruct (Hcov (day_salesperson d, DISTANCE_KM d)) as ([k v] & Hkv & Hk).
    { apply in_map_iff. eauto. }
    cbn [fst] in Hk.
    exists (mkSummary (fst k) (snd k) (round2 v)). split.
    + apply (Permutation_in _ (Permutation_sym (sorted_perm summary_leb _))).
      unfold total_summary_of. apply in_map_iff. exists (k, v). auto.
    + unfold salesperson. cbn [SO_NAME SO_ERP_ID]. destruct k; exact Hk.
Qed.

(** C4. When the sheet is read and lacks a required column, the run makes
    no library call after [read_excel] (no [dropna], [to_numeric],
    [sort_values], [groupby], no day distance) and returns the error
    result, which has a message and neither summary nor breakdown; the
    message is ["Missing column: "] followed by a required column the
    header lacks. *)
Theorem missing_column_fails_fast (file_path : string) (df : DataFrame)
  (c : string) :
  read_excel file_path = inr df ->
  In c required_cols ->
  has_column (columns df) c = false ->
  exists col,
    In col required_cols
    /\ has_column (columns df) col = false
    /\ calculate_monthly_distance file_path
       = ([ReadExcel], Returned (Error ("Missing column: " ++ col)%string)).
Proof.
  intros Hread Hc Hmiss.
  destruct (first_missing_exists _ _ _ Hc Hmiss) as [col Hcol].
  destruct (first_missing_some _ _ Hcol) as (pre & post & Hreq & _ & Hno).
  exists col. split; [|split; [exact Hno|]].
  - rewrite Hreq. apply in_or_app. right. left. reflexivity.
  - unfold calculate_monthly_distance. rewrite Hread. cbn [call bind].
    rewrite Hcol. reflexivity.
Qed.

(** C10. When the sheet lacks two (or more) required columns, the error
    names one of them only: the first one, in the order SO NAME,
    SO_ERP_ID, Latitude, Longitude, WEEK, DAY, VISIT_ORDER, that the header
    lacks.  The message is exactly ["Missing column: "] followed by that
    name, and no other required column name occurs in it. *)
Theorem first_missing_column_only (file_path : string) (df : DataFrame)
  (c1 c2 : string) :
  read_excel file_path = inr df ->
  In c1 required_cols -> In c2 required_cols -> c1 <> c2 ->
  has_column (columns df) c1 = false ->
  has_column (columns df) c2 = false ->
  exists pre col post,
    required_cols = pre ++ col :: post
    /\ Forall (fun x => has_column (columns df) x = true) pre
    /\ has_column (columns df) col = false
    /\ snd (calculate_monthly_distance file_path)
       = Returned (Error ("Missing column: " ++ col)%string)
    /\ forall c', In c' required_cols -> c' <> col ->
                  occurs c' ("Missing column: " ++ col)%string = false.
Proof.
  intros Hread Hc1 _ _ Hmiss1 _.
  destruct (first_missing_exists _ _ _ Hc1 Hmiss1) as [col Hcol].
  destruct (first_missing_some _ _ Hcol) as (pre & post & Hreq & Hpre & Hno).
  exists pre, col, post. repeat split; try assumption.
  - unfold calculate_monthly_distance. rewrite Hread. cbn [call bind].
    rewrite Hcol. reflexivity.
  - assert (Hin : In col required_cols).
    { rewrite Hreq. apply in_or_app. right. left. reflexivity. }
    clear - Hin. intros c' Hc' Hne.
    cbn in Hin, Hc'.
    repeat (destruct Hin as [Hin|Hin]; [subst col|]); try contradiction;
      repeat (destruct Hc' as [Hc'|Hc']; [subst c'|]); try contradiction;
      try congruence; vm_compute; reflexivity.
Qed.

(** C9. When the sheet is read, has every required column, and each of its
    rows lacks a latitude or a longitude, the run ends normally with the
    success result, an empty summary and an empty daily breakdown. *)
Theorem all_rows_without_coordinates (file_path : string) (df : DataFrame) :
  read_excel file_path = inr df ->
  first_missing (columns df) required_cols = None ->
  (forall r, In r (rows df) ->
             isna (loc (columns df) "Latitude" r) = true
             \/ isna (loc (columns df) "Longitude" r) = true) ->
  snd (calculate_monthly_distance file_path) = Returned (Success [] []).
Proof.
  intros Hread Hcols Hrows.
  assert (Hnil : rows (dropna ["Latitude"; "Longitude"]%string df) = []).
  { cbn [dropna rows]. induction (rows df) as [|r rs IH]; [reflexivity|].
    cbn [filter]. unfold complete at 1. cbn [forallb].
    destruct (Hrows r (or_introl eq_refl)) as [-> | ->]; cbn;
      rewrite ?andb_false_r; apply IH; intros r' Hr'; apply Hrows; right;
      exact Hr'. }
  assert (Hco : coerced df = mkFrame (columns df) []).
  { unfold coerced, assign. rewrite Hnil. cbn [dropna columns map].
    destruct (col_index "VISIT_ORDER" (columns df)); [reflexivity|].
    cbn [dropna rows] in Hnil. unfold dropna. rewrite Hnil. reflexivity. }
  assert (Hsort : sort_values sort_rejects_mixed sort_keys (coerced df)
                  = inr (mkFrame (columns df) [])).
  { rewrite Hco. unfold sort_values.
    destruct sort_rejects_mixed; reflexivity. }
  rewrite (@monthly_sorted_ok _ file_path df _ [] Hread Hcols Hsort eq_refl).
  reflexivity.
Qed.

Lemma StronglySorted_later (A : Type) (R : A -> A -> Prop)
  (l1 l2 : list A) (x y : A) :
  StronglySorted R (l1 ++ x :: l2) -> In y l2 -> R x y.
Proof.
  induction l1 as [|a l1 IH]; cbn; intros H Hy.
  - inversion H as [|? ? _ Hall]; subst.
    rewrite Forall_forall in Hall. apply Hall, Hy.
  - inversion H; subst. apply IH; assumption.
Qed.

Lemma StronglySorted_weaken (A : Type) (R R' : A -> A -> Prop)
  (l : list A) :
  (forall a b, R a b -> R' a b) ->
  StronglySorted R l -> StronglySorted R' l.
Proof.
  intros Himp. induction 1 as [|a l _ IH Hall]; constructor; [exact IH|].
  eapply Forall_impl; [|exact Hall]. intros b. apply Himp.
Qed.

(** C7. The summary of a successful run is sorted: every entry is, by its
    lower-cased name, strictly before every later entry, or has the same
    lower-cased name and an id that, as a string, does not exceed the later
    one's.  Hence an entry named "Bob" is never before one named "alice":
    with these two salespeople the order is alice, Bob. *)
Theorem summary_is_sorted (file_path : string) (log : list op)
  (summary : list SummaryEntry) (breakdown : list DayResult) :
  calculate_monthly_distance file_path
  = (log, Returned (Success summary breakdown)) ->
  StronglySorted summary_le summary
  /\ forall before bob after alice,
       summary = before ++ bob :: after ->
       SO_NAME bob = CStr "Bob" ->
       In alice after ->
       SO_NAME alice <> CStr "alice".
Proof.
  intros Hrun.
  destruct (@monthly_success_inv _ _ _ _ _ Hrun)
    as (df & sdf & _ & _ & _ & _ & ->).
  assert (Hs : StronglySorted summary_le
                 (sorted summary_leb
                    (total_summary_of (fold_left add_day breakdown [])))).
  { apply StronglySorted_weaken
      with (R := fun a b => summary_leb a b = true).
    - intros a b. apply summary_leb_le.
    - apply sorted_sorted; unfold summary_leb.
      + intros x y. apply tuple_leb_total.
      + intros x y z. apply tuple_leb_trans. }
  split; [exact Hs|].
  intros before bob after alice Hsplit Hbob Hin Halice.
  rewrite Hsplit in Hs.
  pose proof (@StronglySorted_later _ _ _ _ _ _ Hs Hin) as Hle.
  unfold summary_le in Hle. rewrite Hbob, Halice in Hle.
  cbn in Hle. unfold str_lt in Hle.
  destruct Hle as [H|[H _]]; discriminate.
Qed.

(** ** When the run returns and when it raises *)

Lemma astype_float_ok (cells : list cell) :
  Forall (fun c => float_ok c = true) cells ->
  exists fs, astype_float cells = inr fs.
Proof.
  induction 1 as [|c cells Hc _ [fs IH]]; cbn; [eauto|].
  unfold float_ok in Hc. destruct (py_float c); [discriminate|].
  rewrite IH. eauto.
Qed.

Lemma day_result_ok (k : key4) (df : DataFrame) (rs : list Row) (r0 : Row) :
  Forall (fun r => row_ok df r = true) rs ->
  row_ok df r0 = true ->
  k = row_key (columns df) group_keys r0 ->
  exists d, day_result (k, mkFrame (columns df) rs) = inr d.
Proof.
  intros Hrs Hr0 ->. unfold row_key, group_keys, day_result.
  destruct (astype_float_ok (cells := column "Latitude" (mkFrame (columns df) rs)))
    as [lat ->].
  { unfold column. cbn [columns rows]. rewrite Forall_map.
    eapply Forall_impl; [|exact Hrs]. intros r Hr. unfold row_ok in Hr.
    rewrite !andb_true_iff in Hr. tauto. }
  destruct (astype_float_ok (cells := column "Longitude" (mkFrame (columns df) rs)))
    as [lon ->].
  { unfold column. cbn [columns rows]. rewrite Forall_map.
    eapply Forall_impl; [|exact Hrs]. intros r Hr. unfold row_ok in Hr.
    rewrite !andb_true_iff in Hr. tauto. }
  cbv zeta. unfold row_ok in Hr0. rewrite !andb_true_iff in Hr0.
  destruct Hr0 as [_ Hweek]. unfold int_ok in Hweek.
  destruct (isna (loc (columns df) "WEEK" r0)); cbn [negb orb] in *; [eauto|].
  destruct (py_int (loc (columns df) "WEEK" r0)); [discriminate|eauto].
Qed.

Lemma day_results_ok (gs : list (key4 * DataFrame)) :
  Forall (fun g => exists d, day_result g = inr d) gs ->
  exists ds, day_results gs = inr ds.
Proof.
  induction 1 as [|g gs [d Hd] _ [ds IH]]; cbn; [eauto|].
  rewrite Hd, IH. eauto.
Qed.

Lemma sorted_rows_ok (df sdf : DataFrame) :
  Forall (fun r => row_ok df r = true) (rows df) ->
  sort_values sort_rejects_mixed sort_keys (coerced df) = inr sdf ->
  columns sdf = columns df
  /\ Forall (fun r => row_ok df r = true) (rows sdf).
Proof.
  intros Hok Hsort.
  destruct (@sort_values_perm _ _ _ _ Hsort) as [Hc Hperm].
  rewrite coerced_columns in Hc. split; [exact Hc|].
  eapply Permutation_Forall; [symmetry; exact Hperm|].
  destruct (coerced_rows df) as (f & Hrows & Hloc). rewrite Hrows.
  rewrite Forall_map. cbn [dropna rows].
  rewrite Forall_forall in *. intros r Hr.
  apply filter_In in Hr. destruct Hr as [Hr _].
  unfold row_ok. rewrite !Hloc by discriminate. apply (Hok r Hr).
Qed.

Lemma groups_convert (df : DataFrame) :
  Forall (fun r => row_ok df r = true) (rows df) ->
  exists ds, day_results (groupby group_keys df) = inr ds.
Proof.
  intros Hok. apply day_results_ok. rewrite Forall_forall. intros g Hg.
  destruct (groupby_member _ _ _ Hg) as (k & rs & Hgeq & Hin). subst g.
  destruct (group_rows_spec (columns df) group_keys (rows df)) as [_ Hspec].
  destruct (Hspec _ _ Hin) as [Hrs _].
  destruct (group_rows_key _ _ _ _ _ Hin) as (r0 & Hr0 & Hk).
  rewrite Forall_forall in Hok.
  apply day_result_ok with (r0 := r0); [|apply Hok, Hr0|exact Hk].
  rewrite Forall_forall. intros r Hr. rewrite Hrs in Hr.
  apply filter_In in Hr. apply Hok. tauto.
Qed.

Lemma forallb_false (A : Type) (p : A -> bool) (l : list A) :
  forallb p l = false -> exists a, In a l /\ p a = false.
Proof.
  induction l as [|a l IH]; cbn; [discriminate|].
  destruct (p a) eqn:E; cbn.
  - intros H. destruct (IH H) as (b & Hb & Hpb). eauto.
  - intros _. eauto.
Qed.

End MonthlyProperties.

(* ================================================================== *)
(** * The properties at work on the sample sheets *)
(* ================================================================== *)

Section Examples.

Open Scope string_scope.

Lemma day_distance_short_witness :
  (List.length [(10, 76)%float] < 2)%nat
  /\ @calculate_total_distance_for_day Demo.runtime [(10, 76)%float]
     = 0%float.
Proof.
  split; [cbn; lia|].
  apply (@day_distance_short Demo.runtime [(10, 76)%float]). cbn. lia.
Defined.

Lemma day_distance_is_rounded_sum_witness :
  @calculate_total_distance_for_day Demo.runtime Demo.three_outlets
  = Demo.round_hundredths (27.8125 + 55.625)%float.
Proof.
  apply (@day_distance_is_rounded_sum Demo.runtime Demo.three_outlets
           [27.8125; 55.625]%float).
  - cbn. lia.
  - repeat constructor.
Defined.

Lemma failed_pairs_are_skipped_witness :
  @calculate_total_distance_for_day Demo.runtime Demo.one_bad_point
  = Demo.round_hundredths 55.625%float.
Proof.
  apply (@failed_pairs_are_skipped Demo.runtime Demo.one_bad_point []
           [((100, 76), (10.5, 76)); ((10.5, 76), (10.5, 76.5))]%float
           ((10, 76), (100, 76))%float); reflexivity.
Defined.


(** two outlets are counted for alice's Monday of week 1 *)
Example alice_monday_outlets :
  OUTLETS_VISITED Demo.alice_monday = 2%Z
  /\ List.length
       (filter (fun r => key4_eqb (CStr "alice", CInt 3, CInt 1, CStr "Mon")
                                  (day_key Demo.visits r))
               (rows Demo.visits)) = 3%nat.
Proof. split; vm_compute; reflexivity. Qed.

Lemma monthly_total_is_sum_of_days_witness :
  (forall e, In e Demo.visits_summary ->
     TOTAL_MONTHLY_DISTANCE_KM e
     = Demo.round_hundredths
         (sum_km (map DISTANCE_KM
                      (days_of (salesperson e) Demo.visits_breakdown))))
  /\ (forall d, In d Demo.visits_breakdown ->
        exists e, In e Demo.visits_summary
                  /\ key2_eqb (salesperson e) (day_salesperson d) = true).
Proof.
  apply (@monthly_total_is_sum_of_days Demo.runtime "uploads/visits.xlsx"
           (fst Demo.visits_run) Demo.visits_summary Demo.visits_breakdown).
  vm_compute. reflexivity.
Defined.

(** Bob's month is the rounded sum of his Monday and his Tuesday *)
Example bob_month_total :
  days_of (salesperson Demo.bob_month) Demo.visits_breakdown
  = [nth 0 Demo.visits_breakdown Demo.bob_monday;
     nth 1 Demo.visits_breakdown Demo.bob_monday]
  /\ TOTAL_MONTHLY_DISTANCE_KM Demo.bob_month
     = Demo.round_hundredths
         (0 + DISTANCE_KM (nth 0 Demo.visits_breakdown Demo.bob_monday)
            + DISTANCE_KM (nth 1 Demo.visits_breakdown Demo.bob_monday))%float.
Proof. split; vm_compute; reflexivity. Qed.

Lemma missing_column_fails_fast_witness :
  exists col,
    In col required_cols
    /\ has_column (columns Demo.three_missing) col = false
    /\ @calculate_monthly_distance Demo.runtime "uploads/three_missing.xlsx"
       = ([ReadExcel], Returned (Error ("Missing column: " ++ col))).
Proof.
  apply (@missing_column_fails_fast Demo.runtime
           "uploads/three_missing.xlsx" Demo.three_missing "WEEK").
  - reflexivity.
  - cbn. tauto.
  - reflexivity.
Defined.

Lemma first_missing_column_only_witness :
  exists pre col post,
    required_cols = (pre ++ col :: post)%list
    /\ Forall (fun x => has_column (columns Demo.three_missing) x = true) pre
    /\ has_column (columns Demo.three_missing) col = false
    /\ snd (@calculate_monthly_distance Demo.runtime
              "uploads/three_missing.xlsx")
       = Returned (Error ("Missing column: " ++ col))
    /\ forall c', In c' required_cols -> c' <> col ->
                  occurs c' ("Missing column: " ++ col) = false.
Proof.
  apply (@first_missing_column_only Demo.runtime
           "uploads/three_missing.xlsx" Demo.three_missing
           "Latitude" "VISIT_ORDER").
  - reflexivity.
  - cbn. tauto.
  - cbn. tauto.
  - discriminate.
  - reflexivity.
  - reflexivity.
Defined.

Lemma all_rows_without_coordinates_witness :
  snd (@calculate_monthly_distance Demo.runtime
         "uploads/no_coordinates.xlsx")
  = Returned (Success [] []).
Proof.
  apply (@all_rows_without_coordinates Demo.runtime
           "uploads/no_coordinates.xlsx" Demo.no_coordinates).
  - reflexivity.
  - reflexivity.
  - intros r Hr. cbn in Hr.
    destruct Hr as [<-|[<-|[<-|[]]]]; cbn; auto.
Defined.

Lemma summary_is_sorted_witness :
  StronglySorted (@summary_le Demo.runtime) Demo.visits_summary
  /\ forall before bob after alice,
       Demo.visits_summary = (before ++ bob :: after)%list ->
       SO_NAME bob = CStr "Bob" ->
       In alice after ->
       SO_NAME alice <> CStr "alice".
Proof.
  apply (@summary_is_sorted Demo.runtime "uploads/visits.xlsx"
           (fst Demo.visits_run) Demo.visits_summary Demo.visits_breakdown).
  vm_compute. reflexivity.
Defined.

(** the summary of the sample sheet, where Bob comes first in the sheet *)
Example visits_summary_order :
  map SO_NAME Demo.visits_summary = [CStr "alice"; CStr "Bob"].
Proof. reflexivity. Qed.

(** beyond ASCII the order is that of the lower-cased names too: the
    capital of "Émile" does not put it before "élan" *)
Example accents_summary_order :
  match snd (@calculate_monthly_distance Demo.runtime
               "uploads/accents.xlsx") with
  | Returned (Success summary daily_breakdown) =>
      map SO_NAME summary = [CStr "élan"; CStr "Émile"]
  | _ => False
  end.
Proof. vm_compute. reflexivity. Qed.


(** the same with a week that is text: [int(week)] raises *)
Example text_week_raises :
  snd (@calculate_monthly_distance Demo.runtime "uploads/bad_week.xlsx")
  = Raised ValueError.
Proof. vm_compute. reflexivity. Qed.

(** a key column that mixes numbers and text: [TypeError] from a strict
    sorter, two salespeople otherwise *)
Example mixed_ids_strict :
  snd (@calculate_monthly_distance Demo.runtime "uploads/mixed_ids.xlsx")
  = Raised TypeError.
Proof. vm_compute. reflexivity. Qed.

Example mixed_ids_lenient :
  match snd (@calculate_monthly_distance Demo.lenient_runtime
               "uploads/mixed_ids.xlsx") with
  | Returned (Success summary daily_breakdown) =>
      map SO_ERP_ID summary = [CInt 7; CStr "B-7"]
      /\ map OUTLETS_VISITED daily_breakdown = [1%Z; 1%Z]
  | _ => False
  end.
Proof. vm_compute. split; reflexivity. Qed.

End Examples.

(* ================================================================== *)
(** * More on the two functions of [logic/monthly_distance.py] *)
(* ================================================================== *)

Section MoreOnDayDistance.
Context {X : Externals}.

Lemma kms_of_none (ps : list ((float * float) * (float * float))) :
  (forall p, In p ps -> geodesic_km (fst p) (snd p) = None) ->
  kms_of ps = [].
Proof.
  induction ps as [|p ps IH]; intros Hall; [reflexivity|].
  unfold kms_of in *. cbn [flat_map].
  rewrite (Hall p (or_introl eq_refl)). cbn [app].
  apply IH. intros q Hq. apply Hall. right. exact Hq.
Qed.

(** X1. When the geodesic computation fails for every consecutive pair of
    a path of two or more points, the day's distance is [round(0.0, 2)]:
    the day is reported with no distance, not as an error. *)
Theorem every_pair_failing_gives_rounded_zero
  (coords : list (float * float)) :
  (2 <= List.length coords)%nat ->
  (forall p, In p (consecutive_pairs coords) ->
             geodesic_km (fst p) (snd p) = None) ->
  calculate_total_distance_for_day coords = round2 0%float.
Proof.
  intros Hlen Hall.
  rewrite day_distance_unfold by exact Hlen.
  unfold successful_kms. rewrite (kms_of_none _ Hall). reflexivity.
Qed.

End MoreOnDayDistance.

Section MoreOnMonthlyDistance.
Context {X : Externals}.

Lemma error_result_inv (file_path : string) (log : list op)
  (message : string) :
  calculate_monthly_distance file_path = (log, Returned (Error message)) ->
  log = [ReadExcel]
  /\ ((exists cause,
          read_excel file_path = inl cause
          /\ message = ("Failed to read Excel file: " ++ cause)%string)
      \/ (exists df col,
             read_excel file_path = inr df
             /\ first_missing (columns df) required_cols = Some col
             /\ message = ("Missing column: " ++ col)%string)).
Proof.
  intros Hrun.
  destruct (read_excel file_path) as [cause|df] eqn:Hread.
  { unfold calculate_monthly_distance in Hrun. rewrite Hread in Hrun.
    injection Hrun as <- <-. split; [reflexivity|]. left. eauto. }
  destruct (first_missing (columns df) required_cols) as [col|] eqn:Hcols.
  { unfold calculate_monthly_distance in Hrun. rewrite Hread in Hrun.
    cbn [call bind] in Hrun. rewrite Hcols in Hrun.
    injection Hrun as <- <-. split; [reflexivity|]. right. eauto. }
  rewrite (@monthly_unfold _ _ _ Hread Hcols) in Hrun.
  destruct (sort_values sort_rejects_mixed sort_keys (coerced df))
    as [e|sdf]; [discriminate|].
  destruct (for_each_group (groupby group_keys sdf) ([], []))
    as [l [[results detailed]|e]]; discriminate.
Qed.

(** X2. The error result comes from the first two steps only: when
    [calculate_monthly_distance] returns status "error", nothing but
    [read_excel] was called, and either the file could not be read (the
    message ends with the text of the cause) or the header lacks a
    required column (the message names the first one it lacks).  A sheet
    that is read and has its seven columns never gives status "error". *)
Theorem error_result_means_unread_or_incomplete_header
  (file_path : string) (log : list op) (message : string) :
  calculate_monthly_distance file_path = (log, Returned (Error message)) ->
  log = [ReadExcel]
  /\ ((exists cause,
          read_excel file_path = inl cause
          /\ message = ("Failed to read Excel file: " ++ cause)%string)
      \/ (exists df col,
             read_excel file_path = inr df
             /\ first_missing (columns df) required_cols = Some col
             /\ message = ("Missing column: " ++ col)%string)).
Proof. exact (@error_result_inv file_path log message). Qed.

(** X3. A successful run calls each library step once and in the order
    [read_excel], [dropna], [to_numeric], [sort_values], [groupby], and
    then computes a day distance once for each Day Result of the
    breakdown, and nothing else. *)
Theorem successful_run_calls (file_path : string) (log : list op)
  (summary : list SummaryEntry) (breakdown : list DayResult) :
  calculate_monthly_distance file_path
  = (log, Returned (Success summary breakdown)) ->
  log = [ReadExcel; DropNa; ToNumeric; SortValues; GroupBy]
          ++ repeat DayDistance (List.length breakdown).
Proof.
  intros Hrun.
  destruct (@monthly_success_inv _ _ _ _ _ Hrun)
    as (df & sdf & Hread & Hcols & Hsort & Hds & _).
  rewrite (@monthly_sorted_ok _ _ _ _ _ Hread Hcols Hsort Hds) in Hrun.
  injection Hrun as <- _.
  rewrite (Forall2_length (@day_results_Forall2 _ _ _ Hds)). reflexivity.
Qed.

End MoreOnMonthlyDistance.

(** ** Groups as a partition of the rows *)
Section GroupFacts.

Lemma upsert_total (K A : Type) (eqb : K -> K -> bool) (k : K) (a : A)
  (d : list (K * list A)) :
  fold_right Nat.add 0%nat
    (map (fun e => List.length (snd e))
         (upsert eqb k [a] (fun l => l ++ [a]) d))
  = S (fold_right Nat.add 0%nat (map (fun e => List.length (snd e)) d)).
Proof.
  induction d as [|[k' x] d IH]; [reflexivity|].
  cbn [upsert]. destruct (eqb k' k); cbn [map fold_right snd].
  - rewrite length_app. cbn [List.length]. lia.
  - rewrite IH. lia.
Qed.

Lemma group_rows_total (cols : list string)
  (ks : string * string * string * string) (rs : list Row) :
  fold_right Nat.add 0%nat
    (map (fun g => List.length (snd g)) (group_rows cols ks rs))
  = List.length
      (filter (fun r => negb (key4_isna (row_key cols ks r))) rs).
Proof.
  unfold group_rows.
  enough (Hgen : forall gs,
             fold_right Nat.add 0%nat
               (map (fun g => List.length (snd g))
                    (fold_left
                       (fun gs r =>
                          let k := row_key cols ks r in
                          if key4_isna k then gs else add_to_group k r gs)
                       rs gs))
             = (fold_right Nat.add 0%nat
                  (map (fun g => List.length (snd g)) gs)
                + List.length
                    (filter (fun r => negb (key4_isna (row_key cols ks r)))
                            rs))%nat)
    by (rewrite Hgen; reflexivity).
  induction rs as [|r rs IH]; intros gs; cbn [fold_left filter].
  - cbn. lia.
  - cbv zeta. rewrite IH.
    destruct (key4_isna (row_key cols ks r)); cbn [negb List.length].
    + reflexivity.
    + unfold add_to_group. rewrite upsert_total. lia.
Qed.

(** every row with a complete key is in the group of an equal key *)
Lemma group_rows_cover (cols : list string)
  (ks : string * string * string * string) (rs : list Row) (r : Row) :
  In r rs -> key4_isna (row_key cols ks r) = false ->
  exists k g, In (k, g) (group_rows cols ks rs)
              /\ key4_eqb k (row_key cols ks r) = true.
Proof.
  intros Hr Hna.
  unfold group_rows. rewrite group_rows_fold.
  pose proof (@upsert_table key4 Row (list Row) key4_eqb
                (fun l => l) (fun r => [r]) (fun r l => l ++ [r])
                key4_eqb_sym key4_eqb_trans
                (fun a => eq_refl) (fun l a => eq_refl)
                (map (fun r => (row_key cols ks r, r))
                     (filter (fun r => negb (key4_isna (row_key cols ks r)))
                             rs))) as Htab.
  cbv zeta in Htab.
  destruct Htab as (_ & _ & Hcov).
  - rewrite Forall_forall. intros i Hi.
    apply in_map_iff in Hi. destruct Hi as (r' & <- & Hr').
    apply filter_In in Hr'. destruct Hr' as [_ Hr']. cbn [fst].
    apply key4_eqb_refl. destruct (key4_isna (row_key cols ks r'));
      [discriminate|reflexivity].
  - destruct (Hcov (row_key cols ks r, r)) as ([k g] & Hin & Hk).
    { apply in_map_iff. exists r. split; [reflexivity|].
      apply filter_In. rewrite Hna. auto. }
    exists k, g. auto.
Qed.

Lemma ForallOrdPairs_perm (A : Type) (R : A -> A -> Prop) (l l' : list A) :
  (forall a b, R a b -> R b a) ->
  Permutation l l' -> ForallOrdPairs R l -> ForallOrdPairs R l'.
Proof.
  intros Hsym. induction 1 as [|x l l' Hp IH|x y l|l1 l2 l3 _ IH1 _ IH2];
    intros Hl.
  - exact Hl.
  - inversion Hl as [|? ? Hx Hl']; subst.
    constructor; [|apply IH; exact Hl'].
    eapply Permutation_Forall; eassumption.
  - inversion Hl as [|? ? Hy Hl']; subst.
    inversion Hl' as [|? ? Hx Hl'']; subst.
    inversion Hy as [|? ? Hyx Hyl]; subst.
    constructor; [|constructor; assumption].
    constructor; [apply Hsym; exact Hyx|exact Hx].
  - auto.
Qed.

Lemma ForallOrdPairs_split (A : Type) (R : A -> A -> Prop)
  (l1 l2 l3 : list A) (x y : A) :
  ForallOrdPairs R (l1 ++ x :: l2 ++ y :: l3) -> R x y.
Proof.
  induction l1 as [|a l1 IH]; cbn; intros Hl.
  - inversion Hl as [|? ? Hx _]; subst.
    rewrite Forall_forall in Hx. apply Hx.
    apply in_or_app. right. left. reflexivity.
  - inversion Hl; subst. apply IH. assumption.
Qed.

End GroupFacts.

(** ** The breakdown, group by group *)
Section BreakdownFacts.
Context {X : Externals}.

Lemma day_result_from_group (cols : list string) (k : key4)
  (rs : list Row) (d : DayResult) :
  key4_isna k = false ->
  day_result (k, mkFrame cols rs) = inr d ->
  from_group cols (k, rs) d.
Proof.
  intros Hk Hres.
  pose proof (@day_result_fields _ _ _ _ Hres) as Hf.
  destruct k as [[[so_name so_erp] week] day].
  destruct Hf as (Hn & He & Hw & Hday & Hout).
  assert (Hwk : isna week = false).
  { cbn in Hk. rewrite !orb_false_iff in Hk. tauto. }
  unfold from_group, stands_for. cbn [fst snd].
  repeat split; try assumption; [apply Hw, Hwk|].
  unfold day_result in Hres. unfold coords_of.
  unfold column in Hres. cbn [columns rows] in Hres.
  destruct (astype_float (map (loc cols "Latitude") rs)) as [e|lat] eqn:Hlat;
    [discriminate|].
  destruct (astype_float (map (loc cols "Longitude") rs)) as [e|lon] eqn:Hlon;
    [discriminate|].
  apply astype_float_length in Hlat, Hlon. rewrite length_map in Hlat, Hlon.
  exists (combine lat lon). split; [reflexivity|].
  split; [rewrite length_combine; lia|].
  cbv zeta in Hres.
  destruct (negb (isna week)).
  - destruct (py_int week); [discriminate|].
    injection Hres as <-. reflexivity.
  - injection Hres as <-. reflexivity.
Qed.

Lemma day_results_from_groups (cols : list string)
  (gs : list (key4 * list Row)) (ds : list DayResult) :
  (forall g, In g gs -> key4_isna (fst g) = false) ->
  day_results (map (fun g => (fst g, mkFrame cols (snd g))) gs) = inr ds ->
  Forall2 (from_group cols) gs ds.
Proof.
  revert ds. induction gs as [|[k rs] gs IH]; intros ds Hna;
    cbn [map day_results fst snd].
  - intros Hds. injection Hds as <-. constructor.
  - destruct (day_result (k, mkFrame cols rs)) as [e|d] eqn:Hd;
      [discriminate|].
    destruct (day_results (map (fun g => (fst g, mkFrame cols (snd g))) gs))
      as [e|ds'] eqn:Hds'; [discriminate|].
    intros Hds. injection Hds as <-. constructor.
    + apply day_result_from_group; [|exact Hd].
      apply (Hna (k, rs)). left. reflexivity.
    + apply IH; [|reflexivity]. intros g Hg. apply Hna. right. exact Hg.
Qed.

(** what the sorted frame keeps of the sheet: the header, and the rows
    with both coordinates, each with its day key *)
Lemma sorted_frame_rows (df sdf : DataFrame) :
  sort_values sort_rejects_mixed sort_keys (coerced df) = inr sdf ->
  columns sdf = columns df
  /\ exists f : Row -> Row,
       Permutation (rows sdf)
                   (map f (rows (dropna ["Latitude"; "Longitude"]%string df)))
       /\ forall r, row_key (columns df) group_keys (f r) = day_key df r.
Proof.
  intros Hsort.
  destruct (@sort_values_perm _ _ _ _ Hsort) as [Hc Hperm].
  rewrite coerced_columns in Hc. split; [exact Hc|].
  destruct (coerced_rows df) as (f & Hrows & Hloc).
  exists f. rewrite <- Hrows. split; [exact Hperm|].
  intros r. apply day_key_coerced. exact Hloc.
Qed.

(** A successful run, read as a list of groups: the groups of the sorted
    frame, their keys pairwise different, and the breakdown made of them
    one by one. *)
Lemma breakdown_from_groups (file_path : string) (df : DataFrame)
  (log : list op) (summary : list SummaryEntry)
  (breakdown : list DayResult) :
  read_excel file_path = inr df ->
  calculate_monthly_distance file_path
  = (log, Returned (Success summary breakdown)) ->
  exists sdf,
    sort_values sort_rejects_mixed sort_keys (coerced df) = inr sdf
    /\ Forall2 (from_group (columns df))
               (group_rows (columns df) group_keys (rows sdf)) breakdown.
Proof.
  intros Hread Hrun.
  destruct (@monthly_success_inv _ _ _ _ _ Hrun)
    as (df' & sdf & Hread' & _ & Hsort & Hds & _).
  rewrite Hread in Hread'. injection Hread' as <-.
  exists sdf. split; [exact Hsort|].
  destruct (@sorted_frame_rows df sdf Hsort) as [Hc _].
  unfold groupby in Hds. rewrite Hc in Hds.
  apply day_results_from_groups; [|exact Hds].
  intros [k g] Hg. cbn [fst].
  destruct (group_rows_spec (columns df) group_keys (rows sdf)) as [_ Hspec].
  apply (Hspec _ _ Hg).
Qed.

End BreakdownFacts.

(** ** When the run returns and when it raises, row by row *)
Section ReturnOrRaise.
Context {X : Externals}.















End ReturnOrRaise.

Section ShapeOfTheResult.
Context {X : Externals}.

Lemma outlets_total_groups (cols : list string)
  (gs : list (key4 * list Row)) (ds : list DayResult) :
  Forall2 (from_group cols) gs ds ->
  outlets_total ds
  = Z.of_nat (fold_right Nat.add 0%nat
                (map (fun g => List.length (snd g)) gs)).
Proof.
  unfold outlets_total.
  induction 1 as [|g d gs ds (_ & Hout & _) _ IH]; [reflexivity|].
  cbn [map fold_right]. rewrite IH, Hout. lia.
Qed.

Lemma stands_for_groups (cols : list string)
  (gs : list (key4 * list Row)) (ds : list DayResult) :
  Forall2 (from_group cols) gs ds ->
  Forall2 stands_for (map fst gs) ds.
Proof.
  induction 1 as [|g d gs ds (Hs & _) _ IH]; cbn [map]; constructor;
    assumption.
Qed.

(** X4. The breakdown of a successful run has exactly one Day Result for
    each distinct (salesperson name, salesperson id, week, day) among the
    rows that have both coordinates and all four of these values: the Day
    Results stand, one by one, for day keys that are pairwise different,
    every such row has its key among them, and each of them is the key of
    such a row. *)
Theorem one_day_result_per_day_key (file_path : string) (df : DataFrame)
  (log : list op) (summary : list SummaryEntry)
  (breakdown : list DayResult) :
  read_excel file_path = inr df ->
  calculate_monthly_distance file_path
  = (log, Returned (Success summary breakdown)) ->
  exists keys : list key4,
    Forall2 stands_for keys breakdown
    /\ ForallOrdPairs (fun a b => key4_eqb a b = false) keys
    /\ (forall r, In r (countable_rows df) ->
                  exists k, In k keys /\ key4_eqb k (day_key df r) = true)
    /\ (forall k, In k keys ->
                  exists r, In r (countable_rows df) /\ k = day_key df r).
Proof.
  intros Hread Hrun.
  destruct (breakdown_from_groups _ Hread Hrun) as (sdf & Hsort & Hgs).
  destruct (@sorted_frame_rows _ df sdf Hsort) as (Hc & f & Hperm & Hkey).
  destruct (group_rows_spec (columns df) group_keys (rows sdf))
    as [Hdist Hspec].
  exists (map fst (group_rows (columns df) group_keys (rows sdf))).
  split; [eapply stands_for_groups; exact Hgs|].
  split; [exact Hdist|]. split.
  - intros r Hr. unfold countable_rows in Hr. apply filter_In in Hr.
    destruct Hr as [Hr Hna].
    assert (Hin : In (f r) (rows sdf)).
    { apply (Permutation_in _ (Permutation_sym Hperm)).
      apply in_map. exact Hr. }
    destruct (@group_rows_cover (columns df) group_keys (rows sdf) (f r) Hin)
      as (k & g & Hg & Hk).
    { rewrite Hkey. destruct (key4_isna (day_key df r));
        [discriminate|reflexivity]. }
    exists k. split; [apply (in_map fst) in Hg; exact Hg|].
    rewrite Hkey in Hk. exact Hk.
  - intros k Hk. apply in_map_iff in Hk. destruct Hk as ([k' g] & <- & Hg).
    cbn [fst].
    destruct (@group_rows_key _ _ _ _ _ Hg) as (r' & Hr' & Hk').
    apply (Permutation_in _ Hperm) in Hr'. apply in_map_iff in Hr'.
    destruct Hr' as (r & <- & Hr). rewrite Hkey in Hk'.
    exists r. split; [|exact Hk'].
    unfold countable_rows. apply filter_In. split; [exact Hr|].
    destruct (Hspec _ _ Hg) as [_ Hna]. rewrite <- Hk', Hna. reflexivity.
Qed.

(** X5. In a successful run the OUTLETS_VISITED of the breakdown add up to
    the number of rows of the sheet that have a latitude, a longitude, a
    salesperson name, a salesperson id, a week and a day: each such row is
    counted once, and a row that lacks one of the six is counted nowhere
    (and raises nothing). *)
Theorem outlets_total_counts_complete_rows (file_path : string)
  (df : DataFrame) (log : list op) (summary : list SummaryEntry)
  (breakdown : list DayResult) :
  read_excel file_path = inr df ->
  calculate_monthly_distance file_path
  = (log, Returned (Success summary breakdown)) ->
  outlets_total breakdown
  = Z.of_nat (List.length (countable_rows df)).
Proof.
  intros Hread Hrun.
  destruct (breakdown_from_groups _ Hread Hrun) as (sdf & Hsort & Hgs).
  destruct (@sorted_frame_rows _ df sdf Hsort) as (Hc & f & Hperm & Hkey).
  rewrite (outlets_total_groups Hgs), group_rows_total. f_equal.
  rewrite (@filter_perm_length _ _ _ _ Hperm), filter_map_length.
  unfold countable_rows. apply filter_ext_length.
  intros r _. rewrite Hkey. reflexivity.
Qed.

(** X6. Every Day Result of a successful run counts at least one outlet,
    and a day with a single outlet has the distance [0.0]. *)
Theorem day_result_has_an_outlet (file_path : string) (log : list op)
  (summary : list SummaryEntry) (breakdown : list DayResult)
  (d : DayResult) :
  calculate_monthly_distance file_path
  = (log, Returned (Success summary breakdown)) ->
  In d breakdown ->
  (1 <= OUTLETS_VISITED d)%Z
  /\ (OUTLETS_VISITED d = 1%Z -> DISTANCE_KM d = 0%float).
Proof.
  intros Hrun Hd.
  destruct (@monthly_success_inv _ _ _ _ _ Hrun)
    as (df & sdf & Hread & _ & _ & _ & _).
  destruct (breakdown_from_groups _ Hread Hrun) as (sdf' & Hsort & Hgs).
  destruct (@Forall2_In_r _ _ _ _ _ _ Hgs Hd) as ([k rs] & Hg & Hfrom).
  destruct Hfrom as (_ & Hout & coords & _ & Hlen & Hdist).
  cbn [snd] in Hout, Hlen.
  destruct (group_rows_spec (columns df) group_keys (rows sdf'))
    as [_ Hspec].
  destruct (Hspec _ _ Hg) as [Hrs Hna].
  destruct (@group_rows_key _ _ _ _ _ Hg) as (r0 & Hr0 & Hk).
  assert (Hin : In r0 rs).
  { rewrite Hrs. apply filter_In. split; [exact Hr0|].
    rewrite <- Hk. apply key4_eqb_refl. exact Hna. }
  split.
  - rewrite Hout. destruct rs; [destruct Hin|]. cbn [List.length]. lia.
  - intros Hone. rewrite Hdist. unfold calculate_total_distance_for_day.
    assert (Hl : List.length coords = 1%nat) by lia.
    rewrite Hl. reflexivity.
Qed.

End ShapeOfTheResult.

Section ShapeOfTheSummary.
Context {X : Externals}.

Lemma ForallOrdPairs_map (A B : Type) (f : A -> B) (R : B -> B -> Prop)
  (l : list A) :
  ForallOrdPairs R (map f l) ->
  ForallOrdPairs (fun a b => R (f a) (f b)) l.
Proof.
  induction l as [|a l IH]; cbn [map]; intros Hl; [constructor|].
  inversion Hl as [|? ? Ha Hl']; subst.
  constructor; [|apply IH; exact Hl'].
  rewrite Forall_map in Ha. exact Ha.
Qed.

(** the table of totals of a successful run *)
Lemma results_table (sdf : DataFrame) (breakdown : list DayResult) :
  day_results (groupby group_keys sdf) = inr breakdown ->
  let results := fold_left add_day breakdown [] in
  ForallOrdPairs (fun a b => key2_eqb a b = false) (map fst results)
  /\ forall k, In k (map fst results) ->
               exists d, In d breakdown /\ day_salesperson d = k.
Proof.
  intros Hds results. subst results. rewrite fold_add_day.
  pose proof (@upsert_table key2 float float key2_eqb sum_km
                (fun a => (0 + a)%float) (fun a x => (x + a)%float)
                key2_eqb_sym key2_eqb_trans
                (fun a => eq_refl)
                (fun l a => fold_left_app PrimFloat.add l [a] 0%float)
                (map (fun d => (day_salesperson d, DISTANCE_KM d)) breakdown))
    as Htab.
  cbv zeta in Htab.
  destruct Htab as (Hdist & _ & _).
  { rewrite Forall_forall. intros i Hi. apply in_map_iff in Hi.
    destruct Hi as (d & <- & Hd). cbn [fst].
    destruct (@breakdown_group _ _ _ _ Hds Hd) as (k' & Hk' & Hres).
    pose proof (@day_result_fields _ _ _ _ Hres) as Hf.
    destruct k' as [[[so_name so_erp] week] day].
    destruct Hf as (Hn & Hid & _).
    cbn in Hk'. rewrite !orb_false_iff in Hk'.
    unfold key2_eqb, day_salesperson. cbn [fst snd]. rewrite Hn, Hid.
    rewrite !cell_eqb_refl by tauto. reflexivity. }
  split; [exact Hdist|].
  intros k Hk.
  apply (@fold_upsert_keys key2 float float key2_eqb
           (fun a => (0 + a)%float) (fun a x => (x + a)%float)) in Hk.
  destruct Hk as [[]|Hk]. rewrite map_map in Hk. cbn [fst] in Hk.
  apply in_map_iff in Hk. destruct Hk as (d & <- & Hd). eauto.
Qed.

(** X7. The summary of a successful run has one entry for each salesperson
    of the breakdown and no other: two entries never have equal
    (name, id), and the (name, id) of every entry is that of a Day Result
    of the breakdown. *)
Theorem one_summary_entry_per_salesperson (file_path : string)
  (log : list op) (summary : list SummaryEntry)
  (breakdown : list DayResult) :
  calculate_monthly_distance file_path
  = (log, Returned (Success summary breakdown)) ->
  (forall l1 e1 l2 e2 l3,
      summary = l1 ++ e1 :: l2 ++ e2 :: l3 ->
      key2_eqb (salesperson e1) (salesperson e2) = false)
  /\ (forall e, In e summary ->
        exists d, In d breakdown /\ day_salesperson d = salesperson e).
Proof.
  intros Hrun.
  destruct (@monthly_success_inv _ _ _ _ _ Hrun)
    as (df & sdf & _ & _ & _ & Hds & ->).
  destruct (results_table _ Hds) as [Hdist Hfrom].
  set (results := fold_left add_day breakdown []) in *.
  assert (Hkeys : map salesperson (total_summary_of results)
                  = map fst results).
  { unfold total_summary_of. rewrite map_map. apply map_ext.
    intros [[a b] v]. reflexivity. }
  split.
  - intros l1 e1 l2 e2 l3 Hsplit.
    assert (Hfop : ForallOrdPairs
                     (fun a b => key2_eqb (salesperson a) (salesperson b)
                                 = false)
                     (sorted summary_leb (total_summary_of results))).
    { apply ForallOrdPairs_perm with (l := total_summary_of results).
      - intros a b Hab. rewrite key2_eqb_sym. exact Hab.
      - apply Permutation_sym, sorted_perm.
      - apply (@ForallOrdPairs_map _ _ salesperson
                 (fun a b => key2_eqb a b = false)).
        rewrite Hkeys. exact Hdist. }
    rewrite Hsplit in Hfop.
    exact (ForallOrdPairs_split _ _ _ _ _ Hfop).
  - intros e He.
    apply (Permutation_in _ (sorted_perm summary_leb _)) in He.
    apply (in_map salesperson) in He. rewrite Hkeys in He.
    apply Hfrom. exact He.
Qed.

End ShapeOfTheSummary.

(* ================================================================== *)
(** * Properties of the endpoints of [main.py] *)
(* ================================================================== *)

Section EndpointFacts.
Variable route_result : Type.
Context {X : Externals} {H : Host route_result}.

Lemma json_response_inv (body : Body route_result) (code : Z)
  (r : Response route_result) :
  json_response body code = inr r -> r = mkResponse body code.
Proof.
  unfold json_response. destruct (renders body); [|discriminate].
  intros Hr. injection Hr as <-. reflexivity.
Qed.

Lemma handle_coded (attempt : failure + Response route_result)
  (r : Response route_result) :
  (forall r', attempt = inr r' -> coded r') ->
  handle attempt = Answered r -> coded r.
Proof.
  intros Hok. destruct attempt as [e|r']; cbn [handle].
  - destruct (json_response (ErrorOf e) 500) as [e'|r''] eqn:Hj;
      [discriminate|].
    intros Hr. injection Hr as <-.
    apply json_response_inv in Hj. subst r''. reflexivity.
  - intros Hr. injection Hr as <-. apply Hok. reflexivity.
Qed.

Lemma payload_coded (result : Result) (r' : Response route_result) :
  (if is_error result
   then json_response (Payload result) 400
   else json_response (Payload result) 200) = inr r' ->
  coded r'.
Proof.
  destruct (is_error result) eqn:He; intros Hj;
    apply json_response_inv in Hj; subst r'; unfold coded;
    cbn [content body_is_error status_code]; rewrite He; reflexivity.
Qed.

Lemma route_payload_coded (outcome : string + route_result)
  (r' : Response route_result) :
  match outcome with
  | inl text => inl (RouteError text)
  | inr result =>
      if route_is_error result
      then json_response (RoutePayload result) 400
      else json_response (RoutePayload result) 200
  end = inr r' ->
  coded r'.
Proof.
  destruct outcome as [text|result]; [discriminate|].
  destruct (route_is_error result) eqn:He; intros Hj;
    apply json_response_inv in Hj; subst r'; unfold coded;
    cbn [content body_is_error status_code]; rewrite He; reflexivity.
Qed.

Lemma handle_answers (attempt : failure + Response route_result) :
  (forall e, renders (ErrorOf e) = true) ->
  exists r, handle attempt = Answered r.
Proof.
  intros Hrender. destruct attempt as [e|r]; cbn [handle]; [|eauto].
  unfold json_response. rewrite Hrender. eauto.
Qed.

(** the distance logic sees of the disk the one file it is given *)
Lemma on_disk_same_file (fs1 fs2 : FS) (file_path : string) :
  read_from fs1 file_path = read_from fs2 file_path ->
  @calculate_monthly_distance (on_disk fs1) file_path
  = @calculate_monthly_distance (on_disk fs2) file_path.
Proof.
  intros Hsame. unfold calculate_monthly_distance.
  change (@read_excel (on_disk fs1) file_path)
    with (read_from fs1 file_path).
  change (@read_excel (on_disk fs2) file_path)
    with (read_from fs2 file_path).
  rewrite Hsame. reflexivity.
Qed.

Lemma read_written (fs : FS) (path : string) (data : list Byte.byte) :
  read_from (write fs path data) path = excel_of_bytes data.
Proof. unfold read_from, write. rewrite String.eqb_refl. reflexivity. Qed.

End EndpointFacts.

Section EndpointProperties.
Variable route_result : Type.
Context {X : Externals} {H : Host route_result}.

(** X8. Whenever one of the three endpoints answers, the status code and
    the content agree: 200 goes with a result of the logic whose status is
    not "error", 400 with a result of the logic whose status is "error",
    and 500 with an error dict the endpoint built itself. *)
Theorem answers_are_coded :
  (forall fs data_file r,
      fst (monthly_distance fs data_file) = Answered r -> coded r)
  /\ (forall fs data_file format_file so_name so_erp week day r,
        fst (generate_route fs data_file format_file so_name so_erp week day)
        = Answered r -> coded r)
  /\ (forall fs so_name week day r,
        fst (day_summary fs so_name week day) = Answered r -> coded r).
Proof.
  split; [|split].
  - intros fs data_file r. unfold monthly_distance. cbn [fst].
    apply handle_coded. intros r'.
    destruct (save fs (path_join UPLOAD_DIR (filename data_file)) data_file)
      as [e|fs']; [discriminate|].
    destruct import_failure as [imp_err|].
    { intros Hj. apply json_response_inv in Hj. subst r'. reflexivity. }
    destruct (snd (@calculate_monthly_distance (on_disk fs') _))
      as [result|e]; [|discriminate].
    apply payload_coded.
  - intros fs data_file format_file so_name so_erp week day r.
    unfold generate_route.
    destruct (save fs (path_join UPLOAD_DIR (filename data_file)) data_file)
      as [e|fs1]; cbn [fst].
    { apply handle_coded. discriminate. }
    destruct (save fs1 (path_join UPLOAD_DIR (filename format_file))
                   format_file) as [e|fs2]; cbn [fst].
    { apply handle_coded. discriminate. }
    destruct (process_route fs2 _ _ so_name so_erp week day)
      as [outcome fs3]. cbn [fst].
    apply handle_coded. intros r'. apply route_payload_coded.
  - intros fs so_name week day r. unfold day_summary.
    destruct (get_day_summary fs so_name week day) as [outcome fs'].
    cbn [fst]. apply handle_coded. intros r'. apply route_payload_coded.
Qed.

(** X9. No exception leaves an endpoint as long as [JSONResponse] can
    render the error dict [{"status": "error", "message": str(e)}]: each of
    the three endpoints then answers every request, whatever the upload,
    the disk and the logic do. *)
Theorem endpoints_answer :
  (forall e, renders (@ErrorOf route_result e) = true) ->
  (forall fs data_file,
      exists r, fst (monthly_distance fs data_file) = Answered r)
  /\ (forall fs data_file format_file so_name so_erp week day,
        exists r,
          fst (generate_route fs data_file format_file so_name so_erp
                              week day) = Answered r)
  /\ (forall fs so_name week day,
        exists r, fst (day_summary fs so_name week day) = Answered r).
Proof.
  intros Hrender. split; [|split].
  - intros fs data_file. unfold monthly_distance. cbn [fst].
    apply handle_answers. exact Hrender.
  - intros fs data_file format_file so_name so_erp week day.
    unfold generate_route.
    destruct (save fs _ data_file) as [e|fs1]; cbn [fst];
      [apply handle_answers; exact Hrender|].
    destruct (save fs1 _ format_file) as [e|fs2]; cbn [fst];
      [apply handle_answers; exact Hrender|].
    destruct (process_route fs2 _ _ so_name so_erp week day)
      as [outcome fs3]. cbn [fst].
    apply handle_answers. exact Hrender.
  - intros fs so_name week day. unfold day_summary.
    destruct (get_day_summary fs so_name week day) as [outcome fs'].
    cbn [fst]. apply handle_answers. exact Hrender.
Qed.

(** X10. [POST /monthly-distance/] answers 400 only for a problem with the
    file or its header: the upload was saved, and what was uploaded either
    cannot be read as a sheet or lacks a required column; the content is
    the error result with the corresponding message.  A sheet that is read
    and has its seven columns is answered 200 or 500, never 400. *)
Theorem monthly_distance_400 (fs : FS) (data_file : UploadFile)
  (r : Response route_result) :
  fst (monthly_distance fs data_file) = Answered r ->
  status_code r = 400%Z ->
  write_failure fs (path_join UPLOAD_DIR (filename data_file))
                (file data_file) = None
  /\ exists message,
       content r = Payload (Error message)
       /\ ((exists cause,
               excel_of_bytes (file data_file) = inl cause
               /\ message = ("Failed to read Excel file: " ++ cause)%string)
           \/ (exists df col,
                  excel_of_bytes (file data_file) = inr df
                  /\ first_missing (columns df) required_cols = Some col
                  /\ message = ("Missing column: " ++ col)%string)).
Proof.
  unfold monthly_distance, save. cbn [fst].
  set (file_path := path_join UPLOAD_DIR (filename data_file)).
  destruct (write_failure fs file_path (file data_file)) as [[text fs']|]
    eqn:Hw.
  { cbn [handle]. destruct (json_response (ErrorOf (OSError text)) 500)
      as [e'|r'] eqn:Hj; [discriminate|].
    intros Hr Hcode. injection Hr as <-.
    apply json_response_inv in Hj. subst r'. discriminate. }
  destruct import_failure as [imp_err|].
  { intros Hr Hcode.
    destruct (json_response _ 500) as [e'|r'] eqn:Hj in Hr; cbn [handle] in Hr.
    - destruct (json_response (ErrorOf e') 500) as [e''|r''] eqn:Hj';
        [discriminate|].
      injection Hr as <-. apply json_response_inv in Hj'. subst r''.
      discriminate.
    - injection Hr as <-. apply json_response_inv in Hj. subst r'.
      discriminate. }
  destruct (@calculate_monthly_distance
              (on_disk (write fs file_path (file data_file))) file_path)
    as [log [result|e]] eqn:Hrun; cbn [snd].
  - destruct result as [summary daily_breakdown|message]; cbn [is_error].
    + intros Hr Hcode.
      destruct (json_response (Payload (Success summary daily_breakdown))
                              200) as [e'|r'] eqn:Hj; cbn [handle] in Hr.
      * destruct (json_response (ErrorOf e') 500) as [e''|r''] eqn:Hj';
          [discriminate|].
        injection Hr as <-. apply json_response_inv in Hj'. subst r''.
        discriminate.
      * injection Hr as <-. apply json_response_inv in Hj. subst r'.
        discriminate.
    + intros Hr Hcode. split; [reflexivity|]. exists message.
      destruct (@error_result_inv (on_disk (write fs file_path
                                                  (file data_file)))
                  _ _ _ Hrun) as [_ Hcause].
      change (@read_excel (on_disk (write fs file_path (file data_file)))
                          file_path)
        with (read_from (write fs file_path (file data_file)) file_path)
        in Hcause.
      rewrite read_written in Hcause. split; [|exact Hcause].
      destruct (json_response (Payload (Error message)) 400)
        as [e'|r'] eqn:Hj; cbn [handle] in Hr.
      * destruct (json_response (ErrorOf e') 500) as [e''|r''] eqn:Hj';
          [discriminate|].
        injection Hr as <-. apply json_response_inv in Hj'. subst r''.
        discriminate.
      * injection Hr as <-. apply json_response_inv in Hj. subst r'.
        reflexivity.
  - intros Hr Hcode. cbn [handle] in Hr.
    destruct (json_response (ErrorOf (LogicError e)) 500) as [e'|r'] eqn:Hj;
      [discriminate|].
    injection Hr as <-. apply json_response_inv in Hj. subst r'.
    discriminate.
Qed.

(** X11. The answer of [POST /monthly-distance/] is computed from the
    upload alone: on two disks that both accept the write, the same upload
    gets the same answer, whatever either disk held before under that
    name or any other. *)
Theorem monthly_distance_sees_the_upload_only (fs1 fs2 : FS)
  (data_file : UploadFile) :
  write_failure fs1 (path_join UPLOAD_DIR (filename data_file))
                (file data_file) = None ->
  write_failure fs2 (path_join UPLOAD_DIR (filename data_file))
                (file data_file) = None ->
  fst (monthly_distance fs1 data_file) = fst (monthly_distance fs2 data_file).
Proof.
  intros Hw1 Hw2. unfold monthly_distance, save. cbn [fst].
  rewrite Hw1, Hw2.
  rewrite (@on_disk_same_file _ _ _
             (write fs1 (path_join UPLOAD_DIR (filename data_file))
                    (file data_file))
             (write fs2 (path_join UPLOAD_DIR (filename data_file))
                    (file data_file))).
  - reflexivity.
  - rewrite !read_written. reflexivity.
Qed.

End EndpointProperties.

(* ================================================================== *)
(** * The order of the sorted frame *)
(* ================================================================== *)

Section ComparisonLaws.








End ComparisonLaws.

Section FloatOrder.





End FloatOrder.

Section CellOrder.






End CellOrder.

(** ** The stable sort on an order that holds on part of the elements *)
Section SortedOn.
Variable A : Type.
Variable leb : A -> A -> bool.
Variable P : A -> Prop.

Hypothesis total_on :
  forall x y, P x -> P y -> leb x y = true \/ leb y x = true.
Hypothesis trans_on :
  forall x y z, P x -> P y -> P z ->
                leb x y = true -> leb y z = true -> leb x z = true.



End SortedOn.

Section SortedFrame.
Context {X : Externals}.







End SortedFrame.

Section VisitOrder.
Context {X : Externals}.


End VisitOrder.

Section RouteUploads.
Variable route_result : Type.
Context {X : Externals} {H : Host route_result}.

Lemma write_write (fs : FS) (path : string) (a b : list Byte.byte) :
  write (write fs path a) path b = write fs path b.
Proof.
  apply functional_extensionality. intros p. unfold write.
  destruct (String.eqb p path); reflexivity.
Qed.

(** X13. [POST /generate-route/] stores both uploads under their own
    names in the same directory, the data file first.  When the two have
    the same name the format file replaces the data file before the route
    logic runs: the answer and the disk are then the same whatever the
    data file held. *)
Theorem generate_route_same_name (fs : FS)
  (data_file data_file' format_file : UploadFile)
  (so_name so_erp : string) (week : Z) (day : string) :
  filename data_file = filename format_file ->
  filename data_file' = filename format_file ->
  write_failure fs (path_join UPLOAD_DIR (filename format_file))
                (file data_file) = None ->
  write_failure fs (path_join UPLOAD_DIR (filename format_file))
                (file data_file') = None ->
  write_failure
    (write fs (path_join UPLOAD_DIR (filename format_file)) (file data_file))
    (path_join UPLOAD_DIR (filename format_file)) (file format_file) = None ->
  write_failure
    (write fs (path_join UPLOAD_DIR (filename format_file)) (file data_file'))
    (path_join UPLOAD_DIR (filename format_file)) (file format_file) = None ->
  generate_route fs data_file format_file so_name so_erp week day
  = generate_route fs data_file' format_file so_name so_erp week day.
Proof.
  intros Hn Hn' Hw Hw' Hwf Hwf'.
  unfold generate_route, save. rewrite Hn, Hn', Hw, Hw', Hwf, Hwf'.
  rewrite !write_write. reflexivity.
Qed.

End RouteUploads.

Section ConvertibleSheets.
Variable route_result : Type.
Context {X : Externals} {H : Host route_result}.

Lemma convertible_run_succeeds (file_path : string) (df sdf : DataFrame) :
  read_excel file_path = inr df ->
  first_missing (columns df) required_cols = None ->
  sort_values sort_rejects_mixed sort_keys (coerced df) = inr sdf ->
  Forall (fun r => row_ok df r = true) (rows df) ->
  exists summary breakdown,
    snd (calculate_monthly_distance file_path)
    = Returned (Success summary breakdown).
Proof.
  intros Hread Hcols Hsort Hok.
  destruct (@sorted_rows_ok _ df sdf Hok Hsort) as [Hc Hok'].
  assert (Hconv : exists ds, day_results (groupby group_keys sdf) = inr ds).
  { unfold groupby. rewrite Hc.
    change (exists ds,
               day_results (groupby group_keys
                              (mkFrame (columns df) (rows sdf))) = inr ds).
    apply groups_convert. exact Hok'. }
  destruct Hconv as [ds Hds].
  rewrite (@monthly_sorted_ok _ file_path df sdf ds Hread Hcols Hsort Hds).
  cbn [snd]. eauto.
Qed.

End ConvertibleSheets.

Section GoodUploads.
Variable route_result : Type.
Context {X : Externals} {H : Host route_result}.

(** X14. [POST /monthly-distance/] answers 200 with the success result
    when the upload is saved, the import succeeds, the uploaded sheet has
    its seven columns, [sort_values] accepts its key columns, every row has
    coordinates that convert to [float] and a week that converts to [int],
    and the result the logic returns on the saved file can be rendered. *)
Theorem monthly_distance_200 (fs : FS) (data_file : UploadFile)
  (df sdf : DataFrame) :
  write_failure fs (path_join UPLOAD_DIR (filename data_file))
                (file data_file) = None ->
  @import_failure _ H = None ->
  excel_of_bytes (file data_file) = inr df ->
  first_missing (columns df) required_cols = None ->
  sort_values sort_rejects_mixed sort_keys (coerced df) = inr sdf ->
  Forall (fun r => row_ok df r = true) (rows df) ->
  (forall result,
      snd (@calculate_monthly_distance
             (on_disk (write fs (path_join UPLOAD_DIR (filename data_file))
                             (file data_file)))
             (path_join UPLOAD_DIR (filename data_file)))
      = Returned result ->
      renders (Payload result) = true) ->
  exists summary breakdown,
    fst (monthly_distance fs data_file)
    = Answered (mkResponse (Payload (Success summary breakdown)) 200).
Proof.
  intros Hw Himp Hsheet Hcols Hsort Hok Hrender.
  unfold monthly_distance, save. cbn [fst]. rewrite Hw, Himp.
  set (file_path := path_join UPLOAD_DIR (filename data_file)) in *.
  destruct (@convertible_run_succeeds
              (on_disk (write fs file_path (file data_file)))
              file_path df sdf) as (summary & breakdown & Hrun);
    try assumption.
  { change (read_from (write fs file_path (file data_file)) file_path
            = inr df).
    rewrite read_written. exact Hsheet. }
  rewrite Hrun. cbn [is_error]. unfold json_response.
  rewrite (Hrender _ Hrun). cbn [handle]. eauto.
Qed.

End GoodUploads.

(* ================================================================== *)
(** * The further properties at work on the sample sheets *)
(* ================================================================== *)

Section MoreExamples.

Open Scope string_scope.


(** the two rows of that sheet with a text that does not convert are in no
    day group: Bob's Monday counts the two others *)
Example skipped_text_outlets :
  match snd (@calculate_monthly_distance Demo.lenient_runtime
               "uploads/skipped_text.xlsx") with
  | Returned (Success summary daily_breakdown) =>
      map OUTLETS_VISITED daily_breakdown = [2%Z]
  | _ => False
  end.
Proof. vm_compute. reflexivity. Qed.

Lemma every_pair_failing_gives_rounded_zero_witness :
  @calculate_total_distance_for_day Demo.runtime
    [(100, 76); (100, 77); (95, 76)]%float
  = Demo.round_hundredths 0%float.
Proof.
  apply (@every_pair_failing_gives_rounded_zero Demo.runtime
           [(100, 76); (100, 77); (95, 76)]%float).
  - cbn. lia.
  - intros p Hp. cbn in Hp. destruct Hp as [<-|[<-|[]]]; reflexivity.
Defined.

Lemma error_result_means_unread_or_incomplete_header_witness :
  [ReadExcel] = [ReadExcel]
  /\ ((exists cause,
          @read_excel Demo.runtime "uploads/three_missing.xlsx" = inl cause
          /\ "Missing column: Latitude"
             = "Failed to read Excel file: " ++ cause)
      \/ (exists df col,
             @read_excel Demo.runtime "uploads/three_missing.xlsx" = inr df
             /\ first_missing (columns df) required_cols = Some col
             /\ "Missing column: Latitude" = "Missing column: " ++ col)).
Proof.
  apply (@error_result_means_unread_or_incomplete_header Demo.runtime
           "uploads/three_missing.xlsx" [ReadExcel]
           "Missing column: Latitude").
  reflexivity.
Defined.

Lemma successful_run_calls_witness :
  fst Demo.visits_run
  = ([ReadExcel; DropNa; ToNumeric; SortValues; GroupBy]
       ++ repeat DayDistance (List.length Demo.visits_breakdown))%list.
Proof.
  apply (@successful_run_calls Demo.runtime "uploads/visits.xlsx"
           (fst Demo.visits_run) Demo.visits_summary Demo.visits_breakdown).
  vm_compute. reflexivity.
Defined.

Lemma one_day_result_per_day_key_witness :
  exists keys : list key4,
    Forall2 (@stands_for Demo.runtime) keys Demo.visits_breakdown
    /\ ForallOrdPairs (fun a b => key4_eqb a b = false) keys
    /\ (forall r, In r (countable_rows Demo.visits) ->
                  exists k, In k keys
                            /\ key4_eqb k (day_key Demo.visits r) = true)
    /\ (forall k, In k keys ->
                  exists r, In r (countable_rows Demo.visits)
                            /\ k = day_key Demo.visits r).
Proof.
  apply (@one_day_result_per_day_key Demo.runtime "uploads/visits.xlsx"
           Demo.visits (fst Demo.visits_run) Demo.visits_summary
           Demo.visits_breakdown).
  - reflexivity.
  - vm_compute. reflexivity.
Defined.

Lemma outlets_total_counts_complete_rows_witness :
  outlets_total Demo.visits_breakdown
  = Z.of_nat (List.length (countable_rows Demo.visits)).
Proof.
  apply (@outlets_total_counts_complete_rows Demo.runtime
           "uploads/visits.xlsx" Demo.visits (fst Demo.visits_run)
           Demo.visits_summary Demo.visits_breakdown).
  - reflexivity.
  - vm_compute. reflexivity.
Defined.

(** eight of the nine rows of the sample sheet are counted *)
Example visits_outlets :
  outlets_total Demo.visits_breakdown = 8%Z
  /\ List.length (rows Demo.visits) = 9%nat.
Proof. split; vm_compute; reflexivity. Qed.

Lemma day_result_has_an_outlet_witness :
  let d := nth 3 Demo.visits_breakdown Demo.bob_monday in
  (1 <= OUTLETS_VISITED d)%Z
  /\ (OUTLETS_VISITED d = 1%Z -> DISTANCE_KM d = 0%float).
Proof.
  apply (@day_result_has_an_outlet Demo.runtime "uploads/visits.xlsx"
           (fst Demo.visits_run) Demo.visits_summary Demo.visits_breakdown).
  - vm_compute. reflexivity.
  - right. right. right. left. reflexivity.
Defined.

Lemma one_summary_entry_per_salesperson_witness :
  (forall l1 e1 l2 e2 l3,
      Demo.visits_summary = (l1 ++ e1 :: l2 ++ e2 :: l3)%list ->
      key2_eqb (salesperson e1) (salesperson e2) = false)
  /\ (forall e, In e Demo.visits_summary ->
        exists d, In d Demo.visits_breakdown
                  /\ day_salesperson d = salesperson e).
Proof.
  apply (@one_summary_entry_per_salesperson Demo.runtime
           "uploads/visits.xlsx" (fst Demo.visits_run) Demo.visits_summary
           Demo.visits_breakdown).
  vm_compute. reflexivity.
Defined.


(** Bob's Monday: the sheet lists his outlets as 3, 1, 2; the path takes
    them as 1, 2, 3 *)
Example bob_monday_path :
  DISTANCE_KM Demo.bob_monday
  = @calculate_total_distance_for_day Demo.runtime Demo.three_outlets.
Proof. vm_compute. reflexivity. Qed.

Lemma answers_are_coded_witness :
  let r := mkResponse (@Payload DemoServer.route_result
                         (Success Demo.visits_summary Demo.visits_breakdown))
                      200 in
  fst (@monthly_distance DemoServer.route_result Demo.runtime
         DemoServer.host DemoServer.empty_disk DemoServer.visits_upload)
  = Answered r
  /\ @coded _ DemoServer.host r.
Proof.
  split.
  - vm_compute. reflexivity.
  - destruct (@answers_are_coded DemoServer.route_result Demo.runtime
                DemoServer.host) as [Hmonthly _].
    apply (Hmonthly DemoServer.empty_disk DemoServer.visits_upload).
    vm_compute. reflexivity.
Defined.

Lemma endpoints_answer_witness :
  exists r,
    fst (@monthly_distance DemoServer.route_result Demo.runtime
           DemoServer.host DemoServer.empty_disk DemoServer.text_upload)
    = Answered r.
Proof.
  destruct (@endpoints_answer DemoServer.route_result Demo.runtime
              DemoServer.host) as [Hmonthly _].
  - intros e. reflexivity.
  - exact (Hmonthly DemoServer.empty_disk DemoServer.text_upload).
Defined.

Lemma monthly_distance_400_witness :
  let r := mkResponse (@Payload DemoServer.route_result
                         (Error "Missing column: Latitude")) 400 in
  @write_failure _ DemoServer.host DemoServer.empty_disk
    (path_join UPLOAD_DIR (filename DemoServer.headless_upload))
    (file DemoServer.headless_upload) = None
  /\ exists message,
       content r = Payload (Error message)
       /\ ((exists cause,
               DemoServer.sheet_of (file DemoServer.headless_upload)
               = inl cause
               /\ message = "Failed to read Excel file: " ++ cause)
           \/ (exists df col,
                  DemoServer.sheet_of (file DemoServer.headless_upload)
                  = inr df
                  /\ first_missing (columns df) required_cols = Some col
                  /\ message = "Missing column: " ++ col)).
Proof.
  apply (@monthly_distance_400 DemoServer.route_result Demo.runtime
           DemoServer.host DemoServer.empty_disk DemoServer.headless_upload).
  - vm_compute. reflexivity.
  - reflexivity.
Defined.

Lemma monthly_distance_sees_the_upload_only_witness :
  fst (@monthly_distance DemoServer.route_result Demo.runtime
         DemoServer.host DemoServer.empty_disk DemoServer.visits_upload)
  = fst (@monthly_distance DemoServer.route_result Demo.runtime
           DemoServer.host
           (write DemoServer.empty_disk "uploads/visits.xlsx"
                  (file DemoServer.template_upload))
           DemoServer.visits_upload).
Proof.
  apply (@monthly_distance_sees_the_upload_only DemoServer.route_result
           Demo.runtime DemoServer.host); reflexivity.
Defined.

Lemma generate_route_same_name_witness :
  @generate_route DemoServer.route_result DemoServer.host
    DemoServer.empty_disk DemoServer.visits_upload
    DemoServer.template_upload "Bob" "7" 1 "Mon"
  = @generate_route DemoServer.route_result DemoServer.host
      DemoServer.empty_disk DemoServer.template_upload
      DemoServer.template_upload "Bob" "7" 1 "Mon".
Proof.
  apply (@generate_route_same_name DemoServer.route_result
           DemoServer.host); reflexivity.
Defined.

(** the visits sent as data under the name of the template are answered
    as the template is *)
Example route_on_the_template :
  fst (@generate_route DemoServer.route_result DemoServer.host
         DemoServer.empty_disk DemoServer.visits_upload
         DemoServer.template_upload "Bob" "7" 1 "Mon")
  = Answered (mkResponse (RoutePayload "error") 400).
Proof. vm_compute. reflexivity. Qed.

Lemma monthly_distance_200_witness :
  exists summary breakdown,
    fst (@monthly_distance DemoServer.route_result Demo.runtime
           DemoServer.careful_host DemoServer.empty_disk
           DemoServer.visits_upload)
    = Answered (mkResponse (Payload (Success summary breakdown)) 200).
Proof.
  apply (@monthly_distance_200 DemoServer.route_result Demo.runtime
           DemoServer.careful_host DemoServer.empty_disk
           DemoServer.visits_upload Demo.visits
           (mkFrame Demo.header
                    (sorted (row_leb Demo.header sort_keys)
                            (rows (@coerced Demo.runtime Demo.visits))))).
  - reflexivity.
  - reflexivity.
  - reflexivity.
  - reflexivity.
  - reflexivity.
  - repeat constructor.
  - intros result Hrun. vm_compute in Hrun. injection Hrun as <-.
    vm_compute. reflexivity.
Defined.

(** that host does refuse a result: one with a distance that is [nan] *)
Example careful_host_refuses_nan :
  @renders _ DemoServer.careful_host
    (Payload (Success [mkSummary (CStr "Bob") (CInt 7) PrimFloat.nan] []))
  = false.
Proof. vm_compute. reflexivity. Qed.

(** a sheet with a text latitude is answered 500, not 400 *)
Example text_latitude_is_answered_500 :
  fst (@monthly_distance DemoServer.route_result Demo.runtime
         DemoServer.host DemoServer.empty_disk
         (mkUpload "bad.xlsx" [Byte.x03]))
  = Answered (mkResponse (ErrorOf (LogicError ValueError)) 500).
Proof. vm_compute. reflexivity. Qed.

End MoreExamples.
